(** * Drill-system migration scripts: model and properties

    The repository holds two near-duplicate Python scripts,
    [apply_migration.py] and [apply_migration_simple.py].  Both read the
    Supabase credentials, read one SQL file and talk to the hosted
    database; the first one splits the file on semicolons and submits the
    fragments one by one, the second one only checks which of the four
    drill tables exist.

    The scripts are embedded as state-passing functions over an explicit
    world (remote database, printed lines, trace of remote calls). *)

From Stdlib Require Import String Ascii.
From Stdlib Require Import List Bool Arith NArith ZArith Lia.
Import ListNotations.

Set Implicit Arguments.

(** ** Python text

    A Python [str] is a sequence of Unicode code points. *)

Definition char := N.
Definition str := list char.

(** An ASCII literal as a [str]. *)
Definition u (s : string) : str :=
  map N_of_ascii (list_ascii_of_string s).

Definition LF : char := 10%N.

Module Py.

(** Truth value of a [str]: the empty text is false. *)
Definition truthy (s : str) : bool :=
  match s with
  | [] => false
  | _ :: _ => true
  end.

(** Truth value of what [os.getenv] returns: [None] and the empty text
    are false. *)
Definition truthy_opt (o : option str) : bool :=
  match o with
  | None => false
  | Some s => truthy s
  end.

(** [s.startswith(prefix)]. *)
Fixpoint startswith (s prefix : str) : bool :=
  match prefix with
  | [] => true
  | p :: prefix' =>
      match s with
      | [] => false
      | c :: s' => N.eqb c p && startswith s' prefix'
      end
  end.

(** [needle in hay]. *)
Fixpoint contains (needle hay : str) : bool :=
  startswith hay needle
  || match hay with
     | [] => false
     | _ :: hay' => contains needle hay'
     end.

(** The code points [str.strip()] removes: those for which
    [str.isspace] holds. *)
Definition isspace (c : char) : bool :=
  ((9 <=? c) && (c <=? 13)
   || (28 <=? c) && (c <=? 32)
   || (c =? 133) || (c =? 160)
   || (c =? 5760)
   || (8192 <=? c) && (c <=? 8202)
   || (c =? 8232) || (c =? 8233) || (c =? 8239)
   || (c =? 8287) || (c =? 12288))%N.

Fixpoint lstrip (s : str) : str :=
  match s with
  | [] => []
  | c :: s' => if isspace c then lstrip s' else s
  end.

Definition rstrip (s : str) : str := rev (lstrip (rev s)).

(** [s.strip()] *)
Definition strip (s : str) : str := rstrip (lstrip s).

(** Puts one more code point in front of the first fragment. *)
Definition push (c : char) (fragments : list str) : list str :=
  match fragments with
  | [] => [[c]]
  | f :: fs => (c :: f) :: fs
  end.

(** [s.split(sep)] for a non-empty [sep] (Python raises ValueError on
    an empty one; both scripts pass constants).  Occurrences are taken
    leftmost first and do not overlap; [skip] counts the code points
    of an occurrence that are still to be passed over. *)
Fixpoint split_from (sep : str) (skip : nat) (s : str) : list str :=
  match s with
  | [] => [[]]
  | c :: s' =>
      match skip with
      | S k => split_from sep k s'
      | O =>
          if startswith s sep
          then [] :: split_from sep (length sep - 1) s'
          else push c (split_from sep 0 s')
      end
  end.

Definition split (s sep : str) : list str := split_from sep 0 s.

(** [sep.join(parts)] *)
Fixpoint join (sep : str) (parts : list str) : str :=
  match parts with
  | [] => []
  | [p] => p
  | p :: ps => p ++ sep ++ join sep ps
  end.

(** [s[:n]] *)
Definition slice_to (n : nat) (s : str) : str := firstn n s.

(** ASCII letters only; used where a concrete [str.lower] is needed. *)
Definition ascii_lower_char (c : char) : char :=
  if ((65 <=? c) && (c <=? 90))%N then (c + 32)%N else c.

Definition ascii_lower (s : str) : str := map ascii_lower_char s.

End Py.

(** The delimiter [';'] and the line-comment marker ['--']. *)
Definition semi : char := 59%N.
Definition semicolon : str := [semi].
Definition comment_marker : str := u "--".

(** ** Statement splitter ([apply_migration.py], line 36)

    [[s.strip() for s in migration_sql.split(';')
       if s.strip() and not s.strip().startswith('--')]] *)

Definition statements (migration_sql : str) : list str :=
  flat_map
    (fun s =>
       if Py.truthy (Py.strip s)
          && negb (Py.startswith (Py.strip s) comment_marker)
       then [Py.strip s]
       else [])
    (Py.split migration_sql semicolon).

(** The splitter in the words of the specification: split on the
    delimiter, trim every fragment, then discard the fragments that are
    empty or begin with the comment marker. *)

Definition discarded (fragment : str) : bool :=
  negb (Py.truthy fragment) || Py.startswith fragment comment_marker.

(** A text without whitespace at either end. *)
Definition starts_clean (s : str) : bool :=
  match s with
  | [] => true
  | c :: _ => negb (Py.isspace c)
  end.

Definition trimmed (s : str) : bool :=
  starts_clean s && starts_clean (rev s).

Definition split_spec (rawSql : str) : list str :=
  filter (fun f => negb (discarded f))
         (map Py.strip (Py.split rawSql semicolon)).

(** ** The outside world *)

(** What a call that may raise gives back; an exception is modelled by
    its message, [str(e)]. *)
Inductive Result (A : Type) : Type :=
| Ok (a : A)
| Raise (message : str).

Arguments Ok {A} a.
Arguments Raise {A} message.

(** The hosted database as the scripts reach it through the Supabase
    client.  [Remote] is the state of the database; every call may change
    it, also when it raises.
    - [create_client url key]: line 21 of [apply_migration.py], line 69
      of [apply_migration_simple.py]; no request is sent;
    - [rpc_exec_sql sql]: [supabase.rpc('exec_sql', {'sql': sql}).execute()];
    - [table_count table]:
      [supabase.table(table).select('id', count='exact').limit(0).execute()],
      giving [result.count]. *)
Class Supabase := {
  Remote : Type;
  create_client : str -> str -> Result unit;
  rpc_exec_sql : str -> Remote -> Result unit * Remote;
  table_count : str -> Remote -> Result Z * Remote
}.

(** [str.lower] follows the case tables of the interpreter, which are no
    part of the repository. *)
Class Casing := { lower : str -> str }.

(** What the process is started with: the two variables read from
    [.env.local], the content of the migration file ([None] when it
    cannot be opened) and whether [psycopg2] can be imported. *)
Record Env := {
  NEXT_PUBLIC_SUPABASE_URL : option str;
  SUPABASE_SERVICE_ROLE_KEY : option str;
  migration_file : option str;
  psycopg2_installed : bool
}.

Inductive Exception :=
| ValueError (message : str)
| IndexError
| OSError
| ClientError (message : str).

(** How a script ends: it runs to its last line or dies of an exception
    nobody caught. *)
Inductive Exit :=
| Finished
| Uncaught (e : Exception).

(** Requests sent to the hosted database. *)
Inductive Call :=
| ExecSql (sql : str)
| CountRows (table : str).

(** Per-statement outcome of the apply loop. *)
Inductive ApplyResult :=
| Applied
| SkippedIdempotent
| Failed (reason : str).

(** Per-table outcome of the existence check. *)
Inductive TableStatus :=
| Exists (rowCount : Z)
| Missing.

Inductive MigrationState :=
| Complete
| Partial
| NotStarted.

Definition missing_credentials : str :=
  u "Missing Supabase credentials in .env.local".

Definition drill_scenarios : str := u "drill_scenarios".
Definition drill_runs : str := u "drill_runs".
Definition drill_executions : str := u "drill_executions".
Definition drill_evaluations : str := u "drill_evaluations".

Section World.

Context {sb : Supabase}.

(** [Line] is the type of the lines a script prints.  [outcomes] is
    not a variable of the scripts, which keep no counters: it records
    which branch of the apply loop every statement took. *)
Record World (Line : Type) := {
  remote : Remote;
  stdout : list Line;
  calls : list Call;
  outcomes : list ApplyResult
}.

Definition start {Line} (r : Remote) : World Line :=
  {| remote := r; stdout := []; calls := []; outcomes := [] |}.

Definition print {Line} (l : Line) (w : World Line) : World Line :=
  {| remote := remote w; stdout := stdout w ++ [l];
     calls := calls w; outcomes := outcomes w |}.

Definition tally {Line} (o : ApplyResult) (w : World Line) : World Line :=
  {| remote := remote w; stdout := stdout w;
     calls := calls w; outcomes := outcomes w ++ [o] |}.

(** A request went out and the database moved to [r]. *)
Definition sent {Line} (c : Call) (r : Remote) (w : World Line)
  : World Line :=
  {| remote := r; stdout := stdout w;
     calls := calls w ++ [c]; outcomes := outcomes w |}.

(** Code that may raise, over the world. *)
Definition M (Line A : Type) := World Line -> Result A * World Line.

Definition ret {Line A} (a : A) : M Line A := fun w => (Ok a, w).

Definition bind {Line A B} (m : M Line A) (k : A -> M Line B)
  : M Line B :=
  fun w =>
    match m w with
    | (Ok a, w') => k a w'
    | (Raise e, w') => (Raise e, w')
    end.

Definition say {Line} (l : Line) : M Line unit :=
  fun w => (Ok tt, print l w).

(** One row-count request. *)
Definition count_rows {Line} (table : str) : M Line Z :=
  fun w =>
    let (result, r) := table_count table (remote w) in
    (result, sent (CountRows table) r w).

End World.

(** The table names asked for, in the order asked. *)
Definition queried (cs : list Call) : list str :=
  flat_map (fun c => match c with CountRows t => [t] | _ => [] end) cs.

Notation "x <- m ;; k" := (bind m (fun x => k))
  (at level 61, m at next level, right associativity).
Notation "m ;;; k" := (bind m (fun _ => k))
  (at level 61, right associativity).

(** ** [apply_migration.py] *)

Module ApplyMigration.

(** The lines the script prints, with the values put into them.  A
    block of constant text counts as one line. *)
Inductive Line :=
| Connecting (url : str)                      (* line 18 *)
| ReadingMigration                            (* line 24 *)
| ApplyingMigration                           (* line 29 *)
| Executing (total : nat)                     (* line 39 *)
| Progress (i total : nat)                    (* line 51 *)
| StatementWarning (i : nat) (e : str)        (* line 58 *)
| StatementText (head : str)                  (* line 59, head then "..." *)
| MigrationApplied                            (* line 61 *)
| VerifyingTables                             (* line 62 *)
| TableExists (table : str) (count : Z)       (* lines 80-83 *)
| AllVerified                                 (* line 85 *)
| ErrorApplying (e : str)                     (* line 88 *)
| TryingAlternative                           (* line 89 *)
| RunManually (url : str)                     (* lines 100-102 *)
| Psycopg2Missing (url : str).                (* lines 105-107 *)

Definition already_exists : str := u "already exists".
Definition duplicate : str := u "duplicate".

Section Script.

Context {sb : Supabase} {cs : Casing}.

(** Line 57: the error is one to report. *)
Definition reportable (error_msg : str) : bool :=
  negb (Py.contains already_exists error_msg)
  && negb (Py.contains duplicate error_msg).

(** Lines 42-59, the body of the loop for statement number [i]. *)
Definition apply_step (total i : nat) (statement : str)
           (w : World Line) : World Line :=
  if negb (Py.truthy statement)
     || Py.startswith statement comment_marker
  then w
  else
    let (result, r) := rpc_exec_sql statement (remote w) in
    let w := sent (ExecSql statement) r w in
    match result with
    | Ok _ =>
        let w := if i mod 10 =? 0 then print (Progress i total) w
                 else w in
        tally Applied w
    | Raise e =>
        let error_msg := lower e in
        if reportable error_msg
        then
          let w := print (StatementWarning i e) w in
          let w := print (StatementText (Py.slice_to 100 statement)) w in
          tally (Failed e) w
        else tally SkippedIdempotent w
    end.

(** Line 41, [for i, statement in enumerate(statements, 1)]. *)
Fixpoint apply_loop (total i : nat) (stmts : list str)
         (w : World Line) : World Line :=
  match stmts with
  | [] => w
  | statement :: rest =>
      apply_loop total (S i) rest (apply_step total i statement w)
  end.

(** Lines 75-85. *)
Definition verify_tables : M Line unit :=
  scenarios <- count_rows drill_scenarios ;;
  runs <- count_rows drill_runs ;;
  executions <- count_rows drill_executions ;;
  evaluations <- count_rows drill_evaluations ;;
  say (TableExists drill_scenarios scenarios) ;;;
  say (TableExists drill_runs runs) ;;;
  say (TableExists drill_executions executions) ;;;
  say (TableExists drill_evaluations evaluations) ;;;
  say AllVerified.

(** Lines 31-85, the body of the [try]. *)
Definition try_body (migration_sql : str) : M Line unit :=
  let stmts := statements migration_sql in
  let total := length stmts in
  say (Executing total) ;;;
  (fun w => (Ok tt, apply_loop total 1 stmts w)) ;;;
  say MigrationApplied ;;;
  say VerifyingTables ;;;
  verify_tables.

(** Lines 87-107, the handler. *)
Definition handler (env : Env) (url e : str) (w : World Line)
  : World Line :=
  let w := print (ErrorApplying e) w in
  let w := print TryingAlternative w in
  if psycopg2_installed env
  then print (RunManually url) w
  else print (Psycopg2Missing url) w.

(** The whole script, run against the database [r]. *)
Definition main (env : Env) (r : Remote) : Exit * World Line :=
  let w := start r in
  match NEXT_PUBLIC_SUPABASE_URL env, SUPABASE_SERVICE_ROLE_KEY env with
  | Some SUPABASE_URL, Some SUPABASE_SERVICE_KEY =>
      if negb (Py.truthy SUPABASE_URL)
         || negb (Py.truthy SUPABASE_SERVICE_KEY)
      then (Uncaught (ValueError missing_credentials), w)
      else
        let w := print (Connecting SUPABASE_URL) w in
        match create_client SUPABASE_URL SUPABASE_SERVICE_KEY with
        | Raise e => (Uncaught (ClientError e), w)
        | Ok _ =>
            let w := print ReadingMigration w in
            match migration_file env with
            | None => (Uncaught OSError, w)
            | Some migration_sql =>
                let w := print ApplyingMigration w in
                match try_body migration_sql w with
                | (Ok _, w) => (Finished, w)
                | (Raise e, w) => (Finished, handler env SUPABASE_URL e w)
                end
            end
        end
  | _, _ => (Uncaught (ValueError missing_credentials), w)
  end.

(** The loop alone, on a fresh world: what the specification calls
    [apply]. *)
Definition apply (stmts : list str) (r : Remote) : World Line :=
  apply_loop (length stmts) 1 stmts (start r).

End Script.

(** *** Reading a run *)

(** The summary counters, counted from the branches taken. *)
Definition is_applied (o : ApplyResult) : bool :=
  match o with Applied => true | _ => false end.
Definition is_skipped (o : ApplyResult) : bool :=
  match o with SkippedIdempotent => true | _ => false end.
Definition is_failed (o : ApplyResult) : bool :=
  match o with Failed _ => true | _ => false end.

Record ApplySummary := {
  total_count : nat;
  applied_count : nat;
  skipped_count : nat;
  failed_count : nat;
  failed_details : list (nat * str * str)
}.

(** The failures as the script reports them: statement number and
    error of line 58, statement head of line 59. *)
Fixpoint reported (out : list Line) : list (nat * str * str) :=
  match out with
  | StatementWarning i e :: StatementText head :: out' =>
      (i, e, head) :: reported out'
  | _ :: out' => reported out'
  | [] => []
  end.

Definition count (p : ApplyResult -> bool) (os : list ApplyResult) : nat :=
  length (filter p os).

Definition summary {sb : Supabase} (stmts : list str) (w : World Line)
  : ApplySummary :=
  {| total_count := length stmts;
     applied_count := count is_applied (outcomes w);
     skipped_count := count is_skipped (outcomes w);
     failed_count := count is_failed (outcomes w);
     failed_details := reported (stdout w) |}.

(** The statements sent to the executor, in the order sent. *)
Definition submitted {sb : Supabase} (w : World Line) : list str :=
  flat_map (fun c => match c with ExecSql sql => [sql] | _ => [] end)
           (calls w).

End ApplyMigration.

(** ** [apply_migration_simple.py] *)

Module ApplyMigrationSimple.

Inductive Line :=
| ConnectingProject (project_ref url : str)   (* lines 21-22 *)
| ReadingMigration                            (* line 25 *)
| FileSize (characters : nat)                 (* line 29 *)
| Options (project_ref url : str)             (* lines 32-62 *)
| CheckingTables                              (* line 65 *)
| TableExists (table : str) (count : Z)       (* line 79 *)
| TableMissing (table : str)                  (* line 81 *)
| AllExist                                    (* line 84 *)
| PartialDetected (existing : nat)            (* lines 86-87 *)
| NoneFound                                   (* line 89 *)
| CouldNotVerify (e : str).                   (* lines 92-93 *)

(** Line 72. *)
Definition tables : list str :=
  [drill_scenarios; drill_runs; drill_executions; drill_evaluations].

(** Line 19, [SUPABASE_URL.split('//')[1].split('.')[0]]; [None] when
    the index 1 is out of range. *)
Definition project_ref_of (SUPABASE_URL : str) : option str :=
  match nth_error (Py.split SUPABASE_URL (u "//")) 1 with
  | None => None
  | Some host => Some (hd [] (Py.split host (u ".")))
  end.

Section Script.

Context {sb : Supabase}.

(** Lines 75-81, the loop over the table names; [existing_tables]
    is the list the loop appends to. *)
Fixpoint check_loop (tables existing_tables : list str)
         (w : World Line) : list str * World Line :=
  match tables with
  | [] => (existing_tables, w)
  | table :: rest =>
      let (result, r) := table_count table (remote w) in
      let w := sent (CountRows table) r w in
      match result with
      | Ok count =>
          check_loop rest (existing_tables ++ [table])
                     (print (TableExists table count) w)
      | Raise _ =>
          check_loop rest existing_tables (print (TableMissing table) w)
      end
  end.

(** Lines 83-89. *)
Definition report (existing_tables : list str) (w : World Line)
  : World Line :=
  if length existing_tables =? 4 then print AllExist w
  else if 0 <? length existing_tables
       then print (PartialDetected (length existing_tables)) w
       else print NoneFound w.

(** Lines 72-89 for a given list of names: what the specification
    calls [verify]. *)
Definition verify (tables : list str) (w : World Line) : World Line :=
  let (existing_tables, w) := check_loop tables [] w in
  report existing_tables w.

(** Lines 66-93. *)
Definition check (SUPABASE_URL SUPABASE_SERVICE_KEY : str)
           (w : World Line) : World Line :=
  match create_client SUPABASE_URL SUPABASE_SERVICE_KEY with
  | Raise e => print (CouldNotVerify e) w
  | Ok _ => verify tables w
  end.

Definition main (env : Env) (r : Remote) : Exit * World Line :=
  let w := start r in
  match NEXT_PUBLIC_SUPABASE_URL env, SUPABASE_SERVICE_ROLE_KEY env with
  | Some SUPABASE_URL, Some SUPABASE_SERVICE_KEY =>
      if negb (Py.truthy SUPABASE_URL)
         || negb (Py.truthy SUPABASE_SERVICE_KEY)
      then (Uncaught (ValueError missing_credentials), w)
      else
        match project_ref_of SUPABASE_URL with
        | None => (Uncaught IndexError, w)
        | Some project_ref =>
            let w := print (ConnectingProject project_ref SUPABASE_URL) w in
            let w := print ReadingMigration w in
            match migration_file env with
            | None => (Uncaught OSError, w)
            | Some migration_sql =>
                let w := print (FileSize (length migration_sql)) w in
                let w := print (Options project_ref SUPABASE_URL) w in
                let w := print CheckingTables w in
                (Finished, check SUPABASE_URL SUPABASE_SERVICE_KEY w)
            end
        end
  | _, _ => (Uncaught (ValueError missing_credentials), w)
  end.

End Script.

(** *** Reading a run *)

(** The status a printed line gives to a table. *)
Definition status_of (l : Line) : list (str * TableStatus) :=
  match l with
  | TableExists table count => [(table, Exists count)]
  | TableMissing table => [(table, Missing)]
  | _ => []
  end.

Definition statuses (out : list Line) : list (str * TableStatus) :=
  flat_map status_of out.

(** The aggregate a printed line announces. *)
Definition state_of (l : Line) : list MigrationState :=
  match l with
  | AllExist => [Complete]
  | PartialDetected _ => [Partial]
  | NoneFound => [NotStarted]
  | _ => []
  end.

Definition aggregate (out : list Line) : list MigrationState :=
  flat_map state_of out.

Definition exists_ (s : str * TableStatus) : bool :=
  match snd s with
  | Exists _ => true
  | Missing => false
  end.

End ApplyMigrationSimple.

(** The existence check in the words of the specification: one
    [countRows] attempt per name, in order, success giving [Exists] and
    any error [Missing]. *)
Fixpoint verify_spec {sb : Supabase} (tableNames : list str) (r : Remote)
  : list (str * TableStatus) :=
  match tableNames with
  | [] => []
  | name :: rest =>
      match table_count name r with
      | (Ok count, r') => (name, Exists count) :: verify_spec rest r'
      | (Raise _, r') => (name, Missing) :: verify_spec rest r'
      end
  end.

(** The aggregate rule in the words of the specification: every name
    maps to [Exists], else no name does, else the rest. *)
Definition aggregate_spec (m : list (str * TableStatus)) : MigrationState :=
  if forallb ApplyMigrationSimple.exists_ m then Complete
  else if negb (existsb ApplyMigrationSimple.exists_ m) then NotStarted
  else Partial.

(** A [Statement] of the data model: not empty and no comment line. *)
Definition is_statement (s : str) : bool :=
  Py.truthy s && negb (Py.startswith s comment_marker).

(** ** Two databases to run the scripts against *)

Definition relation_exists : str := u "relation already exists".
Definition syntax_error : str := u "syntax error at or near".
Definition no_relation : str := u "relation does not exist".
Definition no_function : str :=
  u "Could not find the function public.exec_sql(sql) in the schema cache".

Fixpoint mem (s : str) (l : list str) : bool :=
  match l with
  | [] => false
  | x :: l' => (if list_eq_dec N.eq_dec s x then true else false) || mem s l'
  end.

(** A scratch database: its state is the list of CREATE statements that
    took effect.  A CREATE statement succeeds once and is an
    "already exists" conflict afterwards, anything else is a syntax
    error; a table can be counted when some statement that took effect
    names it. *)
Definition scratch : Supabase := {|
  Remote := list str;
  create_client := fun _ _ => Ok tt;
  rpc_exec_sql := fun sql r =>
    if Py.startswith sql (u "CREATE")
    then if mem sql r then (Raise relation_exists, r) else (Ok tt, sql :: r)
    else (Raise syntax_error, r);
  table_count := fun table r =>
    if existsb (Py.contains table) r then (Ok 0%Z, r)
    else (Raise no_relation, r)
|}.

(** A project without the [exec_sql] function and without the drill
    tables: every request raises. *)
Definition bare : Supabase := {|
  Remote := unit;
  create_client := fun _ _ => Ok tt;
  rpc_exec_sql := fun _ r => (Raise no_function, r);
  table_count := fun _ r => (Raise no_relation, r)
|}.

Definition empty_db : Remote (Supabase := scratch) := @nil str.

Definition ascii_casing : Casing := {| lower := Py.ascii_lower |}.

Definition create_table (name : str) : str :=
  u "CREATE TABLE IF NOT EXISTS " ++ name ++ u " (id uuid PRIMARY KEY)".

(** A migration file of four statements, one per drill table. *)
Definition drill_migration : str :=
  u "-- drill system" ++ [semi; LF]
  ++ create_table drill_scenarios ++ [semi; LF]
  ++ create_table drill_runs ++ [semi; LF]
  ++ create_table drill_executions ++ [semi; LF]
  ++ create_table drill_evaluations ++ [semi; LF].

Definition production : Env := {|
  NEXT_PUBLIC_SUPABASE_URL := Some (u "https://abcdefgh.supabase.co");
  SUPABASE_SERVICE_ROLE_KEY := Some (u "service-role-key");
  migration_file := Some drill_migration;
  psycopg2_installed := false
|}.

Unset Implicit Arguments.

(** ** Notions the properties are stated with *)

Section Notions.

Context {sb : Supabase} {cs : Casing}.

Import ApplyMigration.

(** What one pass through the body of the loop adds to the world. *)
Inductive step_effect (i total : nat) (statement : str)
          (w w' : World Line) : Prop :=
| effect_applied (r : Remote) (lines : list Line) :
    rpc_exec_sql statement (remote w) = (Ok tt, r) ->
    lines = [] \/ lines = [Progress i total] ->
    w' = {| remote := r;
            stdout := stdout w ++ lines;
            calls := calls w ++ [ExecSql statement];
            outcomes := outcomes w ++ [Applied] |} ->
    step_effect i total statement w w'
| effect_skipped (r : Remote) (e : str) :
    rpc_exec_sql statement (remote w) = (Raise e, r) ->
    reportable (lower e) = false ->
    w' = {| remote := r;
            stdout := stdout w;
            calls := calls w ++ [ExecSql statement];
            outcomes := outcomes w ++ [SkippedIdempotent] |} ->
    step_effect i total statement w w'
| effect_failed (r : Remote) (e : str) :
    rpc_exec_sql statement (remote w) = (Raise e, r) ->
    reportable (lower e) = true ->
    w' = {| remote := r;
            stdout := stdout w
                      ++ [StatementWarning i e;
                          StatementText (Py.slice_to 100 statement)];
            calls := calls w ++ [ExecSql statement];
            outcomes := outcomes w ++ [Failed e] |} ->
    step_effect i total statement w w'.

(** Printed lines after which the reading of reports starts afresh. *)
Definition settled (out : list Line) : Prop :=
  forall more, reported (out ++ more) = reported out ++ reported more.

(** What the body of the loop reports for statement [i], given the
    answer of the executor. *)
Definition step_report (i : nat) (statement : str) (answer : Result unit)
  : list (nat * str * str) :=
  match answer with
  | Ok _ => []
  | Raise e =>
      if reportable (lower e)
      then [(i, e, Py.slice_to 100 statement)]
      else []
  end.

Definition numbered (lo hi : nat) (d : nat * str * str) : Prop :=
  lo <= fst (fst d) < hi.

(** Lines that say nothing about a table. *)
Definition quiet (l : Line) : Prop :=
  match l with
  | TableExists _ _ | AllVerified => False
  | _ => True
  end.

(** [created s r] says that the object statement [s] creates is in the
    database [r].  The statements of a script are create-style for the
    executor when each of them, run on a database that holds the objects
    of the statements before it in the script, succeeds if its own
    object is not there, which is there afterwards, and raises an error
    the loop keeps quiet about (line 57) if its object is there; and
    running it removes no object.  Nothing is asked of a statement on a
    database that lacks what the statements before it create, so a
    statement may depend on earlier ones (an index on a table). *)
Record CreateStyle (created : str -> Remote -> bool) (stmts : list str)
  : Prop := {
  first_time :
    forall before s after r,
      stmts = before ++ s :: after ->
      (forall x, In x before -> created x r = true) ->
      created s r = false ->
      exists r', rpc_exec_sql s r = (Ok tt, r')
                 /\ created s r' = true
                 /\ forall s', created s' r = true -> created s' r' = true;
  once_more :
    forall before s after r,
      stmts = before ++ s :: after ->
      (forall x, In x before -> created x r = true) ->
      created s r = true ->
      exists e r', rpc_exec_sql s r = (Raise e, r')
                   /\ reportable (lower e) = false
                   /\ forall s', created s' r = true -> created s' r' = true
}.

(** The script creates the four drill tables: once all its objects are
    there, every one of the four tables can be counted, and counting
    removes nothing. *)
Definition CreatesDrillTables (created : str -> Remote -> bool)
           (stmts : list str) : Prop :=
  forall table r,
    In table [drill_scenarios; drill_runs; drill_executions;
              drill_evaluations] ->
    (forall s, In s stmts -> created s r = true) ->
    exists n r', table_count table r = (Ok n, r')
                 /\ forall s, created s r = true -> created s r' = true.

Definition clean (o : ApplyResult) : Prop :=
  o = Applied \/ o = SkippedIdempotent.

End Notions.

Definition long_statement : str :=
  u "INSERT INTO drill_scenarios (id, name, description, difficulty) "
  ++ u "VALUES (gen_random_uuid(), 'warm-up', 'first contact', 1) "
  ++ u "ON CONFLICT DO NOTHING".

Definition three_statements : list str :=
  [create_table drill_runs; long_statement; create_table drill_runs].

(** The run of the three statements on the empty scratch database. *)
Definition scratch_run : World ApplyMigration.Line :=
  ApplyMigration.apply (sb := scratch) (cs := ascii_casing)
                       three_statements [].

(** ** Further notions *)

(** The four tables [apply_migration.py] counts, in the order of lines
    75-78; the list of line 72 of the sibling script is the same. *)
Definition drill_tables : list str :=
  [drill_scenarios; drill_runs; drill_executions; drill_evaluations].

(** Both credentials are there and not empty (line 15 of both
    scripts). *)
Definition credentials_set (env : Env) : bool :=
  Py.truthy_opt (NEXT_PUBLIC_SUPABASE_URL env)
  && Py.truthy_opt (SUPABASE_SERVICE_ROLE_KEY env).

(** The value of a variable that is set. *)
Definition getenv (o : option str) : str :=
  match o with
  | Some s => s
  | None => []
  end.

(** The error messages of the failed outcomes, in order. *)
Definition reasons (os : list ApplyResult) : list str :=
  flat_map (fun o => match o with Failed e => [e] | _ => [] end) os.

(** The error messages of the reported failures, in order. *)
Definition reported_errors (d : list (nat * str * str)) : list str :=
  map (fun x => snd (fst x)) d.

(** A reported failure points at a statement of the list: its number is
    the position of the statement, counted from [first], and its text
    is the head of that statement. *)
Definition points_at (first : nat) (stmts : list str)
           (d : nat * str * str) : Prop :=
  first <= fst (fst d)
  /\ exists statement,
       nth_error stmts (fst (fst d) - first) = Some statement
       /\ snd d = Py.slice_to 100 statement
       /\ length (snd d) <= 100.

(** A progress line of a run over [total] statements is one for a
    multiple of ten within the run. *)
Definition progress_in_step (total : nat) (l : ApplyMigration.Line) : Prop :=
  match l with
  | ApplyMigration.Progress i t =>
      t = total /\ i mod 10 = 0 /\ 10 <= i <= total
  | _ => True
  end.

(** The table statuses [apply_migration.py] prints (lines 80-83). *)
Definition table_lines (out : list ApplyMigration.Line)
  : list (str * TableStatus) :=
  flat_map (fun l => match l with
                     | ApplyMigration.TableExists table count =>
                         [(table, Exists count)]
                     | _ => []
                     end) out.

(** An index on one of the drill tables. *)
Definition create_index : str :=
  u "CREATE INDEX IF NOT EXISTS idx_drill_runs_scenario "
  ++ u "ON drill_runs (scenario_id)".

(** A database with a dependency between objects: as the scratch
    database, but an index can only be created once the table
    [drill_runs] is there. *)
Definition relational : Supabase := {|
  Remote := list str;
  create_client := fun _ _ => Ok tt;
  rpc_exec_sql := fun sql r =>
    if Py.startswith sql (u "CREATE")
    then if Py.startswith sql (u "CREATE INDEX")
            && negb (mem (create_table drill_runs) r)
         then (Raise no_relation, r)
         else if mem sql r then (Raise relation_exists, r)
              else (Ok tt, sql :: r)
    else (Raise syntax_error, r);
  table_count := fun table r =>
    if existsb (Py.contains table) r then (Ok 0%Z, r)
    else (Raise no_relation, r)
|}.

Definition empty_relational : Remote (Supabase := relational) := @nil str.

(** The migration of the four tables followed by the index. *)
Definition indexed_migration : str :=
  drill_migration ++ create_index ++ [semi; LF].

(** A migration file that creates two of the four tables only. *)
Definition half_migration : str :=
  create_table drill_scenarios ++ [semi; LF]
  ++ create_table drill_runs ++ [semi; LF].

Definition staging : Env := {|
  NEXT_PUBLIC_SUPABASE_URL := Some (u "https://abcdefgh.supabase.co");
  SUPABASE_SERVICE_ROLE_KEY := Some (u "service-role-key");
  migration_file := Some half_migration;
  psycopg2_installed := true
|}.

(** How many of the tables are asked for when the counts stop at the
    first one that raises: one more than the tables that exist in a
    row from the start, and all of them when all exist. *)
Fixpoint stop_at (m : list (str * TableStatus)) : nat :=
  match m with
  | [] => 0
  | status :: m' =>
      if ApplyMigrationSimple.exists_ status then S (stop_at m') else 1
  end.

(** The slash and the dot of line 19 of [apply_migration_simple.py]. *)
Definition slash : char := 47%N.
Definition dot : char := 46%N.

(** ** Text lemmas *)

(** The text functions on inputs whose Python results are known. *)

Example split_two_slashes :
  Py.split (u "https://abcdefgh.supabase.co") (u "//")
  = [u "https:"; u "abcdefgh.supabase.co"].
Proof. reflexivity. Qed.

Example split_leftmost_first :
  Py.split (u "a///b//") (u "//") = [u "a"; u "/b"; u ""].
Proof. reflexivity. Qed.

Example split_empty_text : Py.split (u "") semicolon = [u ""].
Proof. reflexivity. Qed.

Example split_keeps_empty_fragments :
  Py.split (u "A; B;;  C ") semicolon = [u "A"; u " B"; u ""; u "  C "].
Proof. reflexivity. Qed.

Example strip_both_ends :
  Py.strip (LF :: u "  CREATE TABLE t (x int)" ++ [9%N; 13%N; LF])
  = u "CREATE TABLE t (x int)".
Proof. reflexivity. Qed.

Example contains_inside :
  Py.contains (u "already exists")
              (Py.ascii_lower (u "ERROR: relation Drill_Runs Already Exists"))
  = true.
Proof. reflexivity. Qed.

Example project_ref_of_url :
  ApplyMigrationSimple.project_ref_of (u "https://abcdefgh.supabase.co")
  = Some (u "abcdefgh").
Proof. reflexivity. Qed.

Example project_ref_without_slashes :
  ApplyMigrationSimple.project_ref_of (u "abcdefgh.supabase.co") = None.
Proof. reflexivity. Qed.

Lemma push_nonempty (c : char) (l : list str) : Py.push c l <> [].
Proof. destruct l; discriminate. Qed.

Lemma split_from_nonempty (sep : str) (s : str) :
  forall skip, Py.split_from sep skip s <> [].
Proof.
  induction s as [|c s IH]; intros skip; cbn [Py.split_from];
    [discriminate|].
  destruct skip; [|apply IH].
  destruct (Py.startswith (c :: s) sep); [discriminate|apply push_nonempty].
Qed.

Lemma join_cons (sep p : str) (ps : list str) :
  ps <> [] -> Py.join sep (p :: ps) = p ++ sep ++ Py.join sep ps.
Proof. destruct ps; [congruence|reflexivity]. Qed.

Lemma join_push (sep : str) (c : char) (l : list str) :
  l <> [] -> Py.join sep (Py.push c l) = c :: Py.join sep l.
Proof.
  destruct l as [|f [|g fs]]; [congruence| |]; reflexivity.
Qed.

Lemma startswith_semicolon (c : char) (s : str) :
  Py.startswith (c :: s) semicolon = N.eqb c semi.
Proof. simpl. destruct s; apply andb_true_r. Qed.

(** Splitting on [';'] and joining with [';'] gives the text back. *)
Lemma join_split_semicolon (s : str) :
  Py.join semicolon (Py.split s semicolon) = s.
Proof.
  unfold Py.split.
  induction s as [|c s IH]; [reflexivity|].
  cbn [Py.split_from]. rewrite startswith_semicolon.
  destruct (N.eqb_spec c semi) as [->|Hc].
  - cbn [length semicolon Nat.sub].
    rewrite join_cons by apply split_from_nonempty.
    now rewrite IH.
  - rewrite join_push by apply split_from_nonempty.
    now rewrite IH.
Qed.

Lemma push_Forall (P : char -> Prop) (c : char) (l : list str) :
  P c -> Forall (Forall P) l -> Forall (Forall P) (Py.push c l).
Proof.
  intros Hc Hl. destruct Hl as [|f fs Hf Hfs]; simpl; repeat constructor; auto.
Qed.

(** No fragment of a split on [';'] holds a [';']. *)
Lemma split_semicolon_free (s : str) :
  Forall (Forall (fun c => c <> semi)) (Py.split s semicolon).
Proof.
  unfold Py.split.
  induction s as [|c s IH]; [repeat constructor|].
  cbn [Py.split_from]. rewrite startswith_semicolon.
  destruct (N.eqb_spec c semi) as [->|Hc].
  - constructor; [constructor|exact IH].
  - now apply push_Forall.
Qed.

Lemma lstrip_Forall (P : char -> Prop) (s : str) :
  Forall P s -> Forall P (Py.lstrip s).
Proof.
  induction 1 as [|c s Hc Hs IH]; simpl; [constructor|].
  destruct (Py.isspace c); [exact IH|now constructor].
Qed.

Lemma strip_Forall (P : char -> Prop) (s : str) :
  Forall P s -> Forall P (Py.strip s).
Proof.
  intros H. unfold Py.strip, Py.rstrip.
  apply Forall_rev, lstrip_Forall, Forall_rev, lstrip_Forall, H.
Qed.

Lemma lstrip_decompose (s : str) :
  exists a, s = a ++ Py.lstrip s /\ forallb Py.isspace a = true.
Proof.
  induction s as [|c s [a [E Ha]]]; [now exists []|]. cbn [Py.lstrip].
  destruct (Py.isspace c) eqn:C.
  - exists (c :: a). cbn [app forallb]. rewrite C, Ha. now rewrite <- E.
  - now exists [].
Qed.

Lemma lstrip_starts_clean (s : str) : starts_clean (Py.lstrip s) = true.
Proof.
  induction s as [|c s IH]; [reflexivity|]. cbn [Py.lstrip].
  destruct (Py.isspace c) eqn:C; [exact IH|]. cbn. now rewrite C.
Qed.

Lemma lstrip_snoc (s : str) (c : char) :
  Py.isspace c = false -> Py.lstrip (s ++ [c]) = Py.lstrip s ++ [c].
Proof.
  intros C. induction s as [|x s IH]; cbn [app Py.lstrip].
  - now rewrite C.
  - destruct (Py.isspace x); [exact IH|reflexivity].
Qed.

(** [strip] takes whitespace, and nothing else, from both ends, and
    leaves none there. *)
Lemma strip_decompose (s : str) :
  exists a b,
    s = a ++ Py.strip s ++ b
    /\ forallb Py.isspace a = true
    /\ forallb Py.isspace b = true.
Proof.
  destruct (lstrip_decompose s) as [a [Ea Ha]].
  destruct (lstrip_decompose (rev (Py.lstrip s))) as [b [Eb Hb]].
  exists a, (rev b). split; [|split; [exact Ha|]].
  - unfold Py.strip, Py.rstrip.
    rewrite <- rev_app_distr, <- Eb, rev_involutive. exact Ea.
  - rewrite forallb_forall in *. intros x Hx. apply Hb.
    now apply in_rev.
Qed.

Lemma strip_trimmed (s : str) : trimmed (Py.strip s) = true.
Proof.
  unfold trimmed, Py.strip, Py.rstrip. rewrite rev_involutive.
  rewrite lstrip_starts_clean, andb_true_r.
  pose proof (lstrip_starts_clean s) as H.
  destruct (Py.lstrip s) as [|c t]; [reflexivity|].
  cbn [starts_clean] in H. apply negb_true_iff in H.
  cbn [rev]. rewrite lstrip_snoc by exact H.
  rewrite rev_app_distr. cbn. now rewrite H.
Qed.

(** The comprehension of line 36 is a map followed by a filter. *)
Lemma statements_filter_map (fragments : list str) :
  flat_map
    (fun s =>
       if Py.truthy (Py.strip s)
          && negb (Py.startswith (Py.strip s) comment_marker)
       then [Py.strip s]
       else [])
    fragments
  = filter is_statement (map Py.strip fragments).
Proof.
  induction fragments as [|f fs IH]; [reflexivity|].
  cbn [flat_map map filter]. unfold is_statement at 1.
  destruct (Py.truthy (Py.strip f)
            && negb (Py.startswith (Py.strip f) comment_marker));
    simpl; now rewrite IH.
Qed.

Lemma is_statement_not_discarded (f : str) :
  is_statement f = negb (discarded f).
Proof.
  unfold is_statement, discarded.
  now rewrite negb_orb, negb_involutive.
Qed.

(** Every statement the splitter gives passes the guard of line 43. *)
Lemma statements_well_formed (migration_sql : str) :
  Forall (fun s => is_statement s = true) (statements migration_sql).
Proof.
  unfold statements. rewrite statements_filter_map.
  apply Forall_forall. intros s Hs. now apply filter_In in Hs.
Qed.

(** ** The apply loop *)

Section ApplyLoop.

Context {sb : Supabase} {cs : Casing}.

Import ApplyMigration.

Lemma guard_is_statement (statement : str) :
  negb (Py.truthy statement) || Py.startswith statement comment_marker
  = negb (is_statement statement).
Proof.
  unfold is_statement. now rewrite negb_andb, negb_involutive.
Qed.

Lemma apply_step_skip (total i : nat) (statement : str) (w : World Line) :
  is_statement statement = false ->
  apply_step total i statement w = w.
Proof.
  intros H. unfold apply_step.
  now rewrite guard_is_statement, H.
Qed.

Lemma apply_step_effect (total i : nat) (statement : str) (w : World Line) :
  is_statement statement = true ->
  step_effect i total statement w (apply_step total i statement w).
Proof.
  intros H. unfold apply_step.
  rewrite guard_is_statement, H. cbn [negb].
  destruct (rpc_exec_sql statement (remote w)) as [[[]|e] r] eqn:E.
  - eapply effect_applied with (lines := if i mod 10 =? 0
                                         then [Progress i total] else []);
      [exact E| |].
    + destruct (i mod 10 =? 0); auto.
    + destruct (i mod 10 =? 0); unfold tally, print, sent; simpl;
        [reflexivity|now rewrite app_nil_r].
  - destruct (reportable (lower e)) eqn:R.
    + eapply effect_failed; [exact E|exact R|].
      unfold tally, print, sent; simpl. now rewrite <- app_assoc.
    + eapply effect_skipped; [exact E|exact R|reflexivity].
Qed.

Lemma apply_loop_app (total : nat) (a b : list str) :
  forall i w,
    apply_loop total i (a ++ b) w
    = apply_loop total (i + length a) b (apply_loop total i a w).
Proof.
  induction a as [|s a IH]; intros i w; cbn [app apply_loop length].
  - now rewrite Nat.add_0_r.
  - rewrite IH. f_equal. lia.
Qed.

(** The statements sent are the statements that pass the guard. *)
Lemma submitted_loop (total : nat) (stmts : list str) :
  forall i w,
    submitted (apply_loop total i stmts w)
    = submitted w ++ filter is_statement stmts.
Proof.
  induction stmts as [|s stmts IH]; intros i w; cbn [apply_loop filter].
  - now rewrite app_nil_r.
  - rewrite IH. destruct (is_statement s) eqn:H.
    + destruct (apply_step_effect total i s w H) as [? ? _ _ ->|? ? _ _ ->|? ? _ _ ->];
        unfold submitted; cbn [calls]; rewrite flat_map_app;
        cbn [flat_map]; now rewrite <- app_assoc.
    + now rewrite apply_step_skip.
Qed.

(** One outcome is recorded for every statement that passes the guard. *)
Lemma outcomes_loop (total : nat) (stmts : list str) :
  forall i w,
    exists os,
      outcomes (apply_loop total i stmts w) = outcomes w ++ os
      /\ length os = length (filter is_statement stmts).
Proof.
  induction stmts as [|s stmts IH]; intros i w; cbn [apply_loop filter].
  - exists []. now rewrite app_nil_r.
  - destruct (is_statement s) eqn:H.
    + destruct (IH (S i) (apply_step total i s w)) as [os [E L]].
      rewrite E.
      destruct (apply_step_effect total i s w H) as [? ? _ _ ->|? ? _ _ ->|? ? _ _ ->];
        cbn [outcomes]; rewrite <- app_assoc;
        eexists; (split; [reflexivity|]); simpl; now rewrite L.
    + rewrite apply_step_skip by assumption. apply IH.
Qed.

Lemma filter_well_formed (stmts : list str) :
  Forall (fun s => is_statement s = true) stmts ->
  filter is_statement stmts = stmts.
Proof.
  induction 1 as [|s stmts H _ IH]; simpl; [reflexivity|].
  now rewrite H, IH.
Qed.

(** Every outcome is counted by exactly one counter. *)
Lemma counters_partition (os : list ApplyResult) :
  count is_applied os + count is_skipped os + count is_failed os
  = length os.
Proof.
  unfold count. induction os as [|[| |e] os IH]; simpl; lia.
Qed.

Lemma outcome_counted_once (o : ApplyResult) :
  Nat.b2n (is_applied o) + Nat.b2n (is_skipped o) + Nat.b2n (is_failed o)
  = 1.
Proof. destruct o; reflexivity. Qed.

End ApplyLoop.

(** ** The failures the loop reports *)

Section Reports.

Context {sb : Supabase} {cs : Casing}.

Import ApplyMigration.

Lemma settled_nil : settled [].
Proof. intros more. reflexivity. Qed.

Lemma settled_app (a b : list Line) :
  settled a -> settled b -> settled (a ++ b).
Proof.
  intros Ha Hb more.
  rewrite <- app_assoc, Ha, Hb, Ha. now rewrite app_assoc.
Qed.

Lemma settled_progress (i total : nat) : settled [Progress i total].
Proof. intros more. reflexivity. Qed.

Lemma settled_failure (i : nat) (e head : str) :
  settled [StatementWarning i e; StatementText head].
Proof. intros more. reflexivity. Qed.

Lemma report_step (total i : nat) (statement : str) (w : World Line) :
  settled (stdout w) ->
  is_statement statement = true ->
  settled (stdout (apply_step total i statement w))
  /\ reported (stdout (apply_step total i statement w))
     = reported (stdout w)
       ++ step_report i statement (fst (rpc_exec_sql statement (remote w))).
Proof.
  intros Hs H.
  destruct (apply_step_effect total i statement w H)
    as [r lines E Hl ->|r e E R ->|r e E R ->];
    rewrite E; cbn [fst stdout step_report]; try rewrite R.
  - destruct Hl as [->| ->].
    + rewrite !app_nil_r. auto.
    + split; [apply settled_app; auto using settled_progress|].
      rewrite Hs. simpl. reflexivity.
  - rewrite app_nil_r. auto.
  - split; [apply settled_app; auto using settled_failure|].
    rewrite Hs. reflexivity.
Qed.

Lemma step_report_numbered (i : nat) (statement : str) (a : Result unit) :
  Forall (numbered i (S i)) (step_report i statement a).
Proof.
  destruct a as [|e]; simpl; [constructor|].
  destruct (reportable (lower e)); repeat constructor; simpl; lia.
Qed.

Lemma numbered_weaken (lo hi lo' hi' : nat) (l : list (nat * str * str)) :
  lo' <= lo -> hi <= hi' ->
  Forall (numbered lo hi) l -> Forall (numbered lo' hi') l.
Proof.
  intros Hlo Hhi. apply Forall_impl. unfold numbered. intros d. lia.
Qed.

(** The reports of a run of the loop carry the numbers of its
    statements. *)
Lemma report_loop (total : nat) (stmts : list str) :
  forall i w,
    settled (stdout w) ->
    settled (stdout (apply_loop total i stmts w))
    /\ exists rep,
         reported (stdout (apply_loop total i stmts w))
         = reported (stdout w) ++ rep
         /\ Forall (numbered i (i + length stmts)) rep.
Proof.
  induction stmts as [|s stmts IH]; intros i w Hs; cbn [apply_loop length].
  - split; [assumption|]. exists []. now rewrite app_nil_r.
  - destruct (is_statement s) eqn:H.
    + destruct (report_step total i s w Hs H) as [Hs' E].
      destruct (IH (S i) _ Hs') as [Hs'' [rep [E' N]]].
      split; [assumption|].
      eexists. rewrite E', E, <- app_assoc. split; [reflexivity|].
      apply Forall_app. split.
      * eapply numbered_weaken; [| |apply step_report_numbered]; lia.
      * eapply numbered_weaken; [| |exact N]; lia.
    + rewrite apply_step_skip by assumption.
      destruct (IH (S i) w Hs) as [Hs'' [rep [E' N]]].
      split; [assumption|]. exists rep. split; [assumption|].
      eapply numbered_weaken; [| |exact N]; lia.
Qed.

End Reports.

(** ** Properties of the migration applier *)

Section Applier.

Context {sb : Supabase} {cs : Casing}.

Import ApplyMigration.

(** C1.  For every sequence of statements (texts that are not empty
    and no comment line, as the data model has them) the run of the
    apply loop records one outcome per statement, every outcome is
    counted by exactly one of the three counters, and
    Applied + SkippedIdempotent + Failed equals total, the number of
    statements given. *)
Theorem apply_counts_sum_to_total (stmts : list str) (r : Remote) :
  Forall (fun s => is_statement s = true) stmts ->
  let w := apply stmts r in
  let sm := summary stmts w in
  length (outcomes w) = length stmts
  /\ (forall o, In o (outcomes w) ->
        Nat.b2n (is_applied o) + Nat.b2n (is_skipped o)
        + Nat.b2n (is_failed o) = 1)
  /\ applied_count sm + skipped_count sm + failed_count sm = total_count sm
  /\ total_count sm = length stmts.
Proof.
  intros Hwf w sm.
  assert (L : length (outcomes w) = length stmts).
  { subst w. unfold apply.
    destruct (outcomes_loop (length stmts) stmts 1 (start r)) as [os [E Los]].
    rewrite E. cbn [outcomes start app].
    now rewrite Los, filter_well_formed. }
  split; [exact L|]. split; [intros o _; apply outcome_counted_once|].
  subst sm. cbn [applied_count skipped_count failed_count total_count summary].
  rewrite counters_partition. auto.
Qed.

(** C4.  For every sequence of statements and every executor, the
    statements sent to the executor are the statements given, each
    once and in the order given, whatever the executor answers. *)
Theorem apply_submits_in_order (stmts : list str) (r : Remote) :
  Forall (fun s => is_statement s = true) stmts ->
  submitted (apply stmts r) = stmts.
Proof.
  intros Hwf. unfold apply.
  rewrite submitted_loop. cbn. now apply filter_well_formed.
Qed.

(** From the migration file on: the statements sent are the statements
    the splitter gives, and the counters add up to their number. *)
Corollary script_submits_split (migration_sql : str) (r : Remote) :
  submitted (apply (statements migration_sql) r) = statements migration_sql.
Proof.
  unfold apply. rewrite submitted_loop. cbn.
  apply filter_well_formed, statements_well_formed.
Qed.

Corollary script_counts_sum_to_total (migration_sql : str) (r : Remote) :
  let sm := summary (statements migration_sql)
                    (apply (statements migration_sql) r) in
  applied_count sm + skipped_count sm + failed_count sm
  = length (statements migration_sql).
Proof.
  cbn [applied_count skipped_count failed_count summary].
  rewrite counters_partition. unfold apply.
  destruct (outcomes_loop (length (statements migration_sql))
                          (statements migration_sql) 1 (start r))
    as [os [E Los]].
  rewrite E. cbn [outcomes start app].
  now rewrite Los, filter_well_formed by apply statements_well_formed.
Qed.

(** C2.  Take a run over [pre ++ statement :: post] in which the
    executor fails on [statement] with the message [e].  If the
    lowercase message contains "already exists" or "duplicate", the
    outcome of the statement is SkippedIdempotent and no failure is
    reported under its number; otherwise the outcome is Failed and the
    failure reported under its number is the error message with the
    first 100 characters of the statement. *)
Theorem failure_classified (pre post : list str) (statement e : str)
        (r r' : Remote) :
  let stmts := pre ++ statement :: post in
  let i := S (length pre) in
  Forall (fun s => is_statement s = true) stmts ->
  rpc_exec_sql statement
               (remote (apply_loop (length stmts) 1 pre (start r)))
  = (Raise e, r') ->
  let w := apply stmts r in
  let sm := summary stmts w in
  if Py.contains already_exists (lower e)
     || Py.contains duplicate (lower e)
  then nth_error (outcomes w) (length pre) = Some SkippedIdempotent
       /\ forall e' head, ~ In (i, e', head) (failed_details sm)
  else nth_error (outcomes w) (length pre) = Some (Failed e)
       /\ forall e' head,
            In (i, e', head) (failed_details sm)
            <-> e' = e /\ head = Py.slice_to 100 statement.
Proof.
  intros stmts i Hwf E w sm. subst sm.
  apply Forall_app in Hwf as [Hpre Hrest].
  inversion Hrest as [|? ? Hst Hpost]; subst.
  set (total := length stmts) in *.
  set (before := apply_loop total 1 pre (start r)) in *.
  set (here := apply_step total i statement before).
  assert (W : w = apply_loop total (S i) post here).
  { subst w here before i. unfold apply. fold total. subst stmts.
    rewrite apply_loop_app. cbn [apply_loop]. reflexivity. }
  (* the outcomes *)
  destruct (outcomes_loop total pre 1 (start r)) as [os1 [O1 L1]].
  fold before in O1. cbn [outcomes start app] in O1.
  rewrite filter_well_formed in L1 by assumption.
  destruct (outcomes_loop total post (S i) here) as [os2 [O2 _]].
  rewrite <- W in O2.
  (* the reports *)
  destruct (report_loop total pre 1 (start r) settled_nil)
    as [S1 [rep1 [R1 N1]]].
  fold before in S1, R1. cbn [stdout start reported app] in R1.
  destruct (report_step total i statement before S1 Hst) as [S2 R2].
  fold here in S2, R2. rewrite E in R2. cbn [fst step_report] in R2.
  destruct (report_loop total post (S i) here S2) as [_ [rep2 [R3 N2]]].
  rewrite <- W in R3.
  assert (Hout : forall o, outcomes here = outcomes before ++ [o] ->
                      nth_error (outcomes w) (length pre) = Some o).
  { intros o Ho. rewrite O2, Ho, O1, <- app_assoc.
    rewrite nth_error_app2 by lia. now rewrite L1, Nat.sub_diag. }
  assert (Hold : forall e' head, ~ In (i, e', head) rep1).
  { intros e' head Hin.
    rewrite Forall_forall in N1. apply N1 in Hin.
    unfold numbered in Hin. simpl in Hin. lia. }
  assert (Hnew : forall e' head, ~ In (i, e', head) rep2).
  { intros e' head Hin.
    rewrite Forall_forall in N2. apply N2 in Hin.
    unfold numbered in Hin. simpl in Hin. lia. }
  assert (C : reportable (lower e)
              = negb (Py.contains already_exists (lower e)
                      || Py.contains duplicate (lower e))).
  { unfold reportable. now rewrite negb_orb. }
  destruct (apply_step_effect total i statement before Hst)
    as [r0 l0 E' _ Hw|r0 e0 E' R Hw|r0 e0 E' R Hw]; fold here in Hw;
    rewrite E in E'; [discriminate| |];
    injection E' as He Hr; subst e0 r0.
  - rewrite R in R2.
    rewrite C in R. apply negb_false_iff in R. rewrite R.
    split; [apply Hout; rewrite Hw; reflexivity|].
    intros e' head. cbn [failed_details summary].
    rewrite R3, R2, R1, app_nil_r.
    intros Hin. apply in_app_or in Hin as [Hin|Hin].
    + exact (Hold _ _ Hin).
    + exact (Hnew _ _ Hin).
  - rewrite R in R2.
    rewrite C in R. apply negb_true_iff in R. rewrite R.
    split; [apply Hout; rewrite Hw; reflexivity|].
    intros e' head. cbn [failed_details summary].
    rewrite R3, R2, R1.
    split.
    + intros Hin. apply in_app_or in Hin as [Hin|Hin];
        [|exfalso; exact (Hnew _ _ Hin)].
      apply in_app_or in Hin as [Hin|Hin];
        [exfalso; exact (Hold _ _ Hin)|].
      destruct Hin as [Hin|[]]. inversion Hin. auto.
    + intros [-> ->]. apply in_or_app. left. apply in_or_app. right.
      now left.
Qed.

End Applier.

(** ** Properties of the statement splitter *)

(** C3.  For every input text the splitter gives the [;]-separated
    fragments of the text (joined by [;] they give the text back, and
    none holds a [;]), each trimmed (whitespace, and only whitespace, is
    taken from both ends and none is left there), those that are empty
    or begin with the comment marker left out, in the order of the
    text; on the empty text and on a lone comment it gives nothing, and
    on ["A; B;;  C "] it gives A, B, C.  The splitter is a total
    function: it gives a list on every text. *)
Theorem split_is_trimmed_kept_fragments :
  (forall rawSql, statements rawSql = split_spec rawSql)
  /\ (forall rawSql,
        Py.join semicolon (Py.split rawSql semicolon) = rawSql
        /\ Forall (Forall (fun c => c <> semi)) (Py.split rawSql semicolon))
  /\ (forall fragment,
        trimmed (Py.strip fragment) = true
        /\ exists a b,
             fragment = a ++ Py.strip fragment ++ b
             /\ forallb Py.isspace a = true
             /\ forallb Py.isspace b = true)
  /\ statements (u "") = []
  /\ statements (u "-- comment only") = []
  /\ statements (u "A; B;;  C ") = [u "A"; u "B"; u "C"].
Proof.
  split; [|split; [|split; [|repeat split; reflexivity]]];
    [| |intros fragment; split;
        [apply strip_trimmed|apply strip_decompose]].
  - intros rawSql. unfold statements, split_spec.
    rewrite statements_filter_map.
    apply filter_ext. intros f. apply is_statement_not_discarded.
  - intros rawSql. split.
    + apply join_split_semicolon.
    + apply split_semicolon_free.
Qed.

(** C9.  For every input text, no statement the splitter gives holds a
    [;]. *)
Theorem statements_hold_no_semicolon (rawSql : str) :
  Forall (fun s => ~ In semi s) (statements rawSql).
Proof.
  unfold statements. rewrite statements_filter_map.
  apply Forall_forall. intros s Hs.
  apply filter_In in Hs as [Hs _].
  apply in_map_iff in Hs as [f [<- Hf]].
  pose proof (split_semicolon_free rawSql) as H.
  rewrite Forall_forall in H. specialize (H f Hf).
  apply strip_Forall in H.
  rewrite Forall_forall in H. intros Hin. now apply (H semi).
Qed.

(** C10.  A fragment whose trimmed text begins with the comment marker
    is left out whole, whatever follows the comment line; so the text
    ["-- note\nCREATE TABLE t(x int)"] gives no statement and nothing of
    it is sent to the executor, while the CREATE statement alone is
    kept. *)
Theorem comment_led_fragment_dropped :
  (forall rawSql fragment,
     In fragment (Py.split rawSql semicolon) ->
     Py.startswith (Py.strip fragment) comment_marker = true ->
     ~ In (Py.strip fragment) (statements rawSql))
  /\ let sql := u "CREATE TABLE t(x int)" in
     let rawSql := u "-- note" ++ LF :: sql in
     statements sql = [sql]
     /\ statements rawSql = []
     /\ forall (sb : Supabase) (cs : Casing) (r : Remote),
          ApplyMigration.submitted
            (ApplyMigration.apply (statements rawSql) r) = [].
Proof.
  split.
  - intros rawSql fragment _ Hc Hin.
    pose proof (statements_well_formed rawSql) as H.
    rewrite Forall_forall in H. apply H in Hin.
    unfold is_statement in Hin. rewrite Hc in Hin.
    now rewrite andb_false_r in Hin.
  - repeat split.
Qed.

Lemma comment_led_fragment_dropped_witness :
  let rawSql := u "SELECT 1;-- note" ++ LF :: u "CREATE TABLE t(x int)" in
  let fragment := u "-- note" ++ LF :: u "CREATE TABLE t(x int)" in
  In fragment (Py.split rawSql semicolon)
  /\ Py.startswith (Py.strip fragment) comment_marker = true
  /\ ~ In (Py.strip fragment) (statements rawSql).
Proof.
  intros rawSql fragment.
  assert (Hin : In fragment (Py.split rawSql semicolon))
    by (right; left; reflexivity).
  assert (Hc : Py.startswith (Py.strip fragment) comment_marker = true)
    by reflexivity.
  split; [exact Hin|]. split; [exact Hc|].
  exact (proj1 comment_led_fragment_dropped rawSql fragment Hin Hc).
Defined.

(** ** Configuration *)

Section Configuration.

Context {sb : Supabase} {cs : Casing}.

(** C7.  If the Supabase URL or the service key is missing from the
    configuration (not set, or set to the empty text), both scripts
    die of a ValueError, and by then no request has been sent and the
    database is as it was. *)
Theorem missing_credentials_abort (env : Env) (r : Remote) :
  Py.truthy_opt (NEXT_PUBLIC_SUPABASE_URL env) = false
  \/ Py.truthy_opt (SUPABASE_SERVICE_ROLE_KEY env) = false ->
  (fst (ApplyMigration.main env r)
   = Uncaught (ValueError missing_credentials)
   /\ calls (snd (ApplyMigration.main env r)) = []
   /\ remote (snd (ApplyMigration.main env r)) = r)
  /\ (fst (ApplyMigrationSimple.main env r)
      = Uncaught (ValueError missing_credentials)
      /\ calls (snd (ApplyMigrationSimple.main env r)) = []
      /\ remote (snd (ApplyMigrationSimple.main env r)) = r).
Proof.
  unfold ApplyMigration.main, ApplyMigrationSimple.main.
  destruct (NEXT_PUBLIC_SUPABASE_URL env) as [url|],
           (SUPABASE_SERVICE_ROLE_KEY env) as [key|];
    cbn [Py.truthy_opt]; intros [H|H]; try discriminate;
    try rewrite H; cbn [negb orb]; try rewrite orb_true_r;
    repeat split.
Qed.

End Configuration.

Lemma missing_credentials_abort_witness :
  let env := {| NEXT_PUBLIC_SUPABASE_URL := Some (u "https://abcdefgh.supabase.co");
                SUPABASE_SERVICE_ROLE_KEY := None;
                migration_file := Some drill_migration;
                psycopg2_installed := true |} in
  Py.truthy_opt (SUPABASE_SERVICE_ROLE_KEY env) = false
  /\ fst (ApplyMigration.main (sb := scratch) (cs := ascii_casing) env [])
     = Uncaught (ValueError missing_credentials)
  /\ calls (snd (ApplyMigrationSimple.main (sb := scratch) env [])) = [].
Proof.
  intros env.
  assert (H : Py.truthy_opt (SUPABASE_SERVICE_ROLE_KEY env) = false)
    by reflexivity.
  pose proof (@missing_credentials_abort scratch ascii_casing env []
                                         (or_intror H)) as [[A _] [_ [B _]]].
  auto.
Defined.

(** ** The applier on the scratch database *)

Lemma apply_counts_sum_to_total_witness :
  Forall (fun s => is_statement s = true) three_statements
  /\ outcomes scratch_run = [Applied; Failed syntax_error; SkippedIdempotent]
  /\ 1 + 1 + 1 = length three_statements.
Proof.
  assert (H : Forall (fun s => is_statement s = true) three_statements)
    by (repeat constructor).
  split; [exact H|].
  pose proof (@apply_counts_sum_to_total scratch ascii_casing
                                         three_statements [] H)
    as [_ [_ [Hsum Htotal]]].
  split; [reflexivity|].
  rewrite <- Htotal, <- Hsum. reflexivity.
Defined.

Lemma apply_submits_in_order_witness :
  Forall (fun s => is_statement s = true) three_statements
  /\ ApplyMigration.submitted scratch_run = three_statements.
Proof.
  assert (H : Forall (fun s => is_statement s = true) three_statements)
    by (repeat constructor).
  split; [exact H|].
  exact (@apply_submits_in_order scratch ascii_casing three_statements [] H).
Defined.

Lemma failure_classified_witness :
  length long_statement = 144
  /\ rpc_exec_sql (Supabase := scratch) long_statement [create_table drill_runs]
     = (Raise syntax_error, [create_table drill_runs])
  /\ nth_error (outcomes scratch_run) 1 = Some (Failed syntax_error)
  /\ In (2, syntax_error, firstn 100 long_statement)
        (ApplyMigration.reported (stdout scratch_run)).
Proof.
  assert (H : Forall (fun s => is_statement s = true) three_statements)
    by (repeat constructor).
  assert (E : rpc_exec_sql (Supabase := scratch) long_statement
                           [create_table drill_runs]
              = (Raise syntax_error, [create_table drill_runs]))
    by reflexivity.
  pose proof (@failure_classified scratch ascii_casing
                [create_table drill_runs] [create_table drill_runs]
                long_statement syntax_error [] [create_table drill_runs]
                H E) as [Hout Hrep].
  split; [reflexivity|]. split; [exact E|]. split; [exact Hout|].
  apply Hrep. split; reflexivity.
Defined.

(** ** Properties of the existence check *)

Section Verifier.

Context {sb : Supabase}.

Import ApplyMigrationSimple.

Lemma statuses_app (a b : list Line) :
  statuses (a ++ b) = statuses a ++ statuses b.
Proof. apply flat_map_app. Qed.

Lemma aggregate_app (a b : list Line) :
  aggregate (a ++ b) = aggregate a ++ aggregate b.
Proof. apply flat_map_app. Qed.

Lemma queried_app (a b : list Call) :
  queried (a ++ b) = queried a ++ queried b.
Proof. apply flat_map_app. Qed.

Lemma verify_spec_length (tableNames : list str) :
  forall r, length (verify_spec tableNames r) = length tableNames.
Proof.
  induction tableNames as [|t ts IH]; intros r; cbn [verify_spec];
    [reflexivity|].
  destruct (table_count t r) as [[c|e] r']; simpl; now rewrite IH.
Qed.

(** The loop of lines 75-81 asks for every name in turn, prints one
    status line per name and collects the names that exist. *)
Lemma check_loop_spec (tableNames : list str) :
  forall existing_tables w,
    exists lines,
      stdout (snd (check_loop tableNames existing_tables w))
      = stdout w ++ lines
      /\ statuses lines = verify_spec tableNames (remote w)
      /\ aggregate lines = []
      /\ calls (snd (check_loop tableNames existing_tables w))
         = calls w ++ map CountRows tableNames
      /\ fst (check_loop tableNames existing_tables w)
         = existing_tables
           ++ map fst (filter exists_ (verify_spec tableNames (remote w))).
Proof.
  induction tableNames as [|t ts IH]; intros ex w;
    cbn [check_loop verify_spec].
  - exists []. cbn. now rewrite !app_nil_r.
  - destruct (table_count t (remote w)) as [[c|e] r'].
    + destruct (IH (ex ++ [t]) (print (TableExists t c)
                                      (sent (CountRows t) r' w)))
        as [lines [Hout [Hst [Hag [Hc Hex]]]]].
      exists (TableExists t c :: lines).
      rewrite Hout, Hc, Hex. cbn [stdout calls remote print sent].
      rewrite <- !app_assoc. cbn [app map filter exists_ snd fst].
      repeat split; try reflexivity.
      * unfold statuses in *. cbn [flat_map status_of app]. now rewrite Hst.
      * unfold aggregate in *. cbn [flat_map state_of app]. exact Hag.
    + destruct (IH ex (print (TableMissing t) (sent (CountRows t) r' w)))
        as [lines [Hout [Hst [Hag [Hc Hex]]]]].
      exists (TableMissing t :: lines).
      rewrite Hout, Hc, Hex. cbn [stdout calls remote print sent].
      rewrite <- !app_assoc. cbn [app map filter exists_ snd fst].
      repeat split; try reflexivity.
      * unfold statuses in *. cbn [flat_map status_of app]. now rewrite Hst.
      * unfold aggregate in *. cbn [flat_map state_of app]. exact Hag.
Qed.

Lemma filter_all (A : Type) (p : A -> bool) (l : list A) :
  (length (filter p l) =? length l) = forallb p l.
Proof.
  induction l as [|x l IH]; [reflexivity|]. cbn [filter forallb length].
  destruct (p x); cbn [length andb].
  - exact IH.
  - pose proof (filter_length_le p l). apply Nat.eqb_neq. lia.
Qed.

Lemma filter_some (A : Type) (p : A -> bool) (l : list A) :
  (0 <? length (filter p l)) = existsb p l.
Proof.
  induction l as [|x l IH]; [reflexivity|]. cbn [filter existsb].
  destruct (p x); [reflexivity|exact IH].
Qed.

(** What line 83-89 print, for any number of names that exist. *)
Lemma report_line (existing_tables : list str) (w : World Line) :
  exists l,
    report existing_tables w = print l w
    /\ status_of l = []
    /\ state_of l
       = [if length existing_tables =? 4 then Complete
          else if 0 <? length existing_tables then Partial
               else NotStarted].
Proof.
  unfold report.
  destruct (length existing_tables =? 4);
    [|destruct (0 <? length existing_tables)];
    eexists; repeat split.
Qed.

(** The check of [apply_migration_simple.py] on a list of four names, as
    the list of line 72 is: for every querier it asks for every name
    once and in order, gives a name Exists with the count when the
    count request succeeds and Missing when it raises, and announces
    Complete when every name exists, NotStarted when none does and
    Partial otherwise. *)
Theorem verify_four_tables (tableNames : list str) (r : Remote) :
  length tableNames = 4 ->
  let w := verify tableNames (start r) in
  queried (calls w) = tableNames
  /\ statuses (stdout w) = verify_spec tableNames r
  /\ aggregate (stdout w) = [aggregate_spec (verify_spec tableNames r)].
Proof.
  intros Hlen w. subst w. unfold verify.
  destruct (check_loop_spec tableNames [] (start r))
    as [lines [Hout [Hst [Hag [Hc Hex]]]]].
  destruct (check_loop tableNames [] (start r)) as [ex w] eqn:E.
  cbn [fst snd] in *.
  destruct (report_line ex w) as [l [-> [Hl1 Hl2]]].
  cbn [calls stdout print]. rewrite Hout, Hc. cbn [stdout calls start app].
  rewrite statuses_app, aggregate_app, Hst, Hag.
  unfold statuses at 1, aggregate at 1. cbn [flat_map].
  rewrite Hl1, Hl2, !app_nil_r. cbn [app].
  repeat split.
  - clear. unfold queried.
    induction tableNames as [|t ts IH]; [reflexivity|].
    simpl. now f_equal.
  - f_equal. rewrite Hex. cbn [app]. rewrite length_map.
    cbn [remote start].
    unfold aggregate_spec.
    rewrite <- filter_all, <- filter_some, verify_spec_length, Hlen.
    destruct (length (filter exists_ (verify_spec tableNames r)) =? 4);
      [reflexivity|].
    now destruct (0 <? length (filter exists_ (verify_spec tableNames r))).
Qed.

End Verifier.

Lemma verify_four_tables_witness :
  let r : Remote (Supabase := scratch) :=
    [create_table drill_runs; create_table drill_scenarios] in
  length ApplyMigrationSimple.tables = 4
  /\ ApplyMigrationSimple.statuses
       (stdout (ApplyMigrationSimple.verify ApplyMigrationSimple.tables
                                            (start r)))
     = [(drill_scenarios, Exists 0); (drill_runs, Exists 0);
        (drill_executions, Missing); (drill_evaluations, Missing)]
  /\ ApplyMigrationSimple.aggregate
       (stdout (ApplyMigrationSimple.verify ApplyMigrationSimple.tables
                                            (start r)))
     = [Partial].
Proof.
  intros r.
  assert (H : length ApplyMigrationSimple.tables = 4) by reflexivity.
  pose proof (@verify_four_tables scratch ApplyMigrationSimple.tables r H)
    as [_ [Hst Hag]].
  split; [exact H|]. split.
  - rewrite Hst. reflexivity.
  - rewrite Hag. reflexivity.
Defined.

(** ** Verification in [apply_migration.py] *)

Section VerificationGap.

Context {sb : Supabase} {cs : Casing}.

Import ApplyMigration.

(** The database after a pass through the loop body depends on the
    database before it and on the statement only. *)
Lemma remote_step (total total' i i' : nat) (statement : str)
      (w w' : World Line) :
  remote w = remote w' ->
  remote (apply_step total i statement w)
  = remote (apply_step total' i' statement w').
Proof.
  intros H. unfold apply_step.
  destruct (negb (Py.truthy statement)
            || Py.startswith statement comment_marker); [exact H|].
  rewrite H.
  destruct (rpc_exec_sql statement (remote w')) as [[[]|e] r1].
  - now destruct (i mod 10 =? 0), (i' mod 10 =? 0).
  - now destruct (reportable (lower e)).
Qed.

Lemma remote_loop (total total' : nat) (stmts : list str) :
  forall i i' (w w' : World Line),
    remote w = remote w' ->
    remote (apply_loop total i stmts w)
    = remote (apply_loop total' i' stmts w').
Proof.
  induction stmts as [|s stmts IH]; intros i i' w w' H; cbn [apply_loop];
    [exact H|].
  apply IH. now apply remote_step.
Qed.

Lemma calls_loop (total : nat) (stmts : list str) :
  forall i w,
    calls (apply_loop total i stmts w)
    = calls w ++ map ExecSql (filter is_statement stmts).
Proof.
  induction stmts as [|s stmts IH]; intros i w; cbn [apply_loop filter].
  - now rewrite app_nil_r.
  - rewrite IH. destruct (is_statement s) eqn:H.
    + destruct (apply_step_effect total i s w H)
        as [? ? _ _ ->|? ? _ _ ->|? ? _ _ ->];
        cbn [calls map]; now rewrite <- app_assoc.
    + now rewrite apply_step_skip.
Qed.

Lemma quiet_loop (total : nat) (stmts : list str) :
  forall i w,
    Forall quiet (stdout w) ->
    Forall quiet (stdout (apply_loop total i stmts w)).
Proof.
  induction stmts as [|s stmts IH]; intros i w Hq; cbn [apply_loop];
    [exact Hq|].
  apply IH. destruct (is_statement s) eqn:H.
  - destruct (apply_step_effect total i s w H)
      as [? ? _ [->| ->] ->|? ? _ _ ->|? ? _ _ ->];
      cbn [stdout]; try (apply Forall_app; split); try assumption;
      repeat constructor.
  - now rewrite apply_step_skip.
Qed.

Lemma queried_exec (stmts : list str) : queried (map ExecSql stmts) = [].
Proof. unfold queried. induction stmts; [reflexivity|exact IHstmts]. Qed.

Lemma verify_tables_raises (e : str) (r' : Remote) (w : World Line) :
  table_count drill_scenarios (remote w) = (Raise e, r') ->
  verify_tables w = (Raise e, sent (CountRows drill_scenarios) r' w).
Proof.
  intros H. unfold verify_tables, bind, count_rows. now rewrite H.
Qed.

(** C6, where [apply_migration.py] departs from it.  With the
    credentials set and the migration file read, if the count request
    for the first table raises after the statements have been applied,
    the script still runs to its end, but it asks for no other table,
    prints no status line for any table and reports the error as an
    error of the migration. *)
Theorem verification_error_hides_tables (env : Env) (url key sql e : str)
        (r r' : Remote) :
  NEXT_PUBLIC_SUPABASE_URL env = Some url ->
  SUPABASE_SERVICE_ROLE_KEY env = Some key ->
  Py.truthy url = true ->
  Py.truthy key = true ->
  create_client url key = Ok tt ->
  migration_file env = Some sql ->
  table_count drill_scenarios (remote (apply (statements sql) r))
  = (Raise e, r') ->
  fst (main env r) = Finished
  /\ queried (calls (snd (main env r))) = [drill_scenarios]
  /\ (forall table count,
        ~ In (TableExists table count) (stdout (snd (main env r))))
  /\ ~ In AllVerified (stdout (snd (main env r)))
  /\ In (ErrorApplying e) (stdout (snd (main env r))).
Proof.
  intros Hurl Hkey Tu Tk Hc Hf Hq.
  unfold main. rewrite Hurl, Hkey, Tu, Tk, Hc, Hf. cbn [negb orb].
  set (w0 := print ApplyingMigration
                   (print ReadingMigration
                          (print (Connecting url) (start r)))).
  set (stmts := statements sql) in *.
  set (w1 := apply_loop (length stmts) 1 stmts
                        (print (Executing (length stmts)) w0)).
  set (w2 := print VerifyingTables (print MigrationApplied w1)).
  assert (Hbody : try_body sql w0
                  = (Raise e, sent (CountRows drill_scenarios) r' w2)).
  { change (try_body sql w0) with (verify_tables w2).
    apply verify_tables_raises. rewrite <- Hq.
    f_equal. subst w2 w1. cbn [remote print]. unfold apply.
    now apply remote_loop. }
  rewrite Hbody.
  assert (Hquiet : Forall quiet (stdout w2)).
  { subst w2. cbn [stdout print].
    repeat (apply Forall_app; split); try (repeat constructor).
    subst w1. apply quiet_loop. subst w0. cbn. repeat constructor. }
  assert (Hout : exists last,
             stdout (handler env url e
                             (sent (CountRows drill_scenarios) r' w2))
             = stdout w2 ++ [ErrorApplying e; TryingAlternative; last]
             /\ quiet last
             /\ calls (handler env url e
                               (sent (CountRows drill_scenarios) r' w2))
                = calls w2 ++ [CountRows drill_scenarios]).
  { unfold handler. destruct (psycopg2_installed env);
      eexists; cbn [stdout calls print sent]; rewrite <- !app_assoc;
      repeat split. }
  destruct Hout as [last [Hout [Hlast Hcalls]]].
  cbn [fst snd]. rewrite Hout, Hcalls.
  assert (Hall : Forall quiet
                        (stdout w2
                         ++ [ErrorApplying e; TryingAlternative; last])).
  { apply Forall_app. split; [exact Hquiet|]. repeat constructor.
    exact Hlast. }
  rewrite Forall_forall in Hall.
  split; [reflexivity|]. split; [|split; [|split]].
  - rewrite queried_app. subst w2 w1. cbn [calls print].
    rewrite calls_loop, queried_app, queried_exec. reflexivity.
  - intros table count Hin. exact (Hall _ Hin).
  - intros Hin. exact (Hall _ Hin).
  - apply in_or_app. right. now left.
Qed.

End VerificationGap.

(** On a project without the [exec_sql] function and without the drill
    tables. *)
Lemma verification_error_hides_tables_witness :
  let w := snd (ApplyMigration.main (sb := bare) (cs := ascii_casing)
                                    production tt) in
  table_count (Supabase := bare) drill_scenarios tt = (Raise no_relation, tt)
  /\ queried (calls w) = [drill_scenarios]
  /\ ApplyMigration.submitted w = statements drill_migration
  /\ ~ In ApplyMigration.AllVerified (stdout w)
  /\ In (ApplyMigration.ErrorApplying no_relation) (stdout w).
Proof.
  intros w.
  assert (Hq : table_count (Supabase := bare) drill_scenarios
                 (remote (ApplyMigration.apply (sb := bare)
                            (cs := ascii_casing)
                            (statements drill_migration) tt))
               = (Raise no_relation, tt)) by reflexivity.
  pose proof (@verification_error_hides_tables bare ascii_casing production
                (u "https://abcdefgh.supabase.co") (u "service-role-key")
                drill_migration no_relation tt tt
                eq_refl eq_refl eq_refl eq_refl eq_refl eq_refl Hq)
    as [_ [Hcalls [_ [Hall Herr]]]].
  split; [reflexivity|]. split; [exact Hcalls|].
  split; [reflexivity|]. split; [exact Hall|exact Herr].
Defined.

(** The sibling script keeps going: with the credentials set, a project
    reference in the URL and the file read, [apply_migration_simple.py]
    runs to its end, asks for all four tables and prints a status for
    each, whatever the count requests answer. *)
Lemma simple_check_covers_every_table {sb : Supabase} (env : Env)
      (url key ref sql : str) (r : Remote) :
  NEXT_PUBLIC_SUPABASE_URL env = Some url ->
  SUPABASE_SERVICE_ROLE_KEY env = Some key ->
  Py.truthy url = true ->
  Py.truthy key = true ->
  ApplyMigrationSimple.project_ref_of url = Some ref ->
  migration_file env = Some sql ->
  create_client url key = Ok tt ->
  fst (ApplyMigrationSimple.main env r) = Finished
  /\ queried (calls (snd (ApplyMigrationSimple.main env r)))
     = ApplyMigrationSimple.tables
  /\ ApplyMigrationSimple.statuses
       (stdout (snd (ApplyMigrationSimple.main env r)))
     = verify_spec ApplyMigrationSimple.tables r.
Proof.
  intros Hurl Hkey Tu Tk Href Hf Hc.
  unfold ApplyMigrationSimple.main.
  rewrite Hurl, Hkey, Tu, Tk, Href, Hf. cbn [negb orb fst snd].
  unfold ApplyMigrationSimple.check. rewrite Hc.
  unfold ApplyMigrationSimple.verify.
  set (w0 := print _ (print _ (print _ (print _ (print _ (start r)))))).
  assert (H0 : remote w0 = r
               /\ calls w0 = []
               /\ ApplyMigrationSimple.statuses (stdout w0) = [])
    by (repeat split).
  destruct H0 as [Hr [Hc0 Hs0]].
  destruct (check_loop_spec ApplyMigrationSimple.tables [] w0)
    as [lines [Hout [Hst [_ [Hcalls _]]]]].
  destruct (ApplyMigrationSimple.check_loop ApplyMigrationSimple.tables [] w0)
    as [ex w].
  cbn [snd] in Hout, Hcalls.
  destruct (report_line ex w) as [l [-> [Hl _]]].
  cbn [calls stdout print]. rewrite Hout, Hcalls, Hc0.
  split; [reflexivity|]. split; [reflexivity|].
  rewrite !statuses_app, Hst, Hs0, Hr.
  unfold ApplyMigrationSimple.statuses at 1. cbn [flat_map].
  rewrite Hl. cbn [app]. now rewrite app_nil_r.
Qed.

(** ** Running the migration twice *)

Section Idempotence.

Context {sb : Supabase} {cs : Casing}.

Import ApplyMigration.

Variable created : str -> Remote -> bool.
Variable stmts : list str.
Hypothesis style : CreateStyle created stmts.

Lemma create_style_step (total i : nat) (before : list str) (s : str)
      (after : list str) (w : World Line) :
  stmts = before ++ s :: after ->
  (forall x, In x before -> created x (remote w) = true) ->
  is_statement s = true ->
  (forall s', created s' (remote w) = true ->
              created s' (remote (apply_step total i s w)) = true)
  /\ created s (remote (apply_step total i s w)) = true
  /\ outcomes (apply_step total i s w)
     = outcomes w ++ [if created s (remote w) then SkippedIdempotent
                      else Applied].
Proof.
  intros Hdec Hbefore Hst.
  destruct (created s (remote w)) eqn:C.
  - destruct (once_more _ _ style before s after (remote w) Hdec Hbefore C)
      as [e [r' [E [R M]]]].
    destruct (apply_step_effect total i s w Hst)
      as [r0 l0 E' _ ->|r0 e0 E' R' ->|r0 e0 E' R' ->];
      rewrite E in E'; try discriminate;
      injection E' as He Hr; subst e0 r0; cbn [remote outcomes].
    + repeat split; auto.
    + congruence.
  - destruct (first_time _ _ style before s after (remote w) Hdec Hbefore C)
      as [r' [E [C' M]]].
    destruct (apply_step_effect total i s w Hst)
      as [r0 l0 E' _ ->|r0 e0 E' R' ->|r0 e0 E' R' ->];
      rewrite E in E'; try discriminate;
      injection E' as Hr; subst r0; cbn [remote outcomes].
    repeat split; auto.
Qed.

(** A run over the rest [todo] of the script, on a database that holds
    the objects of the statements already [done]. *)
Lemma create_style_loop (total : nat) (todo : list str) :
  Forall (fun s => is_statement s = true) todo ->
  forall done i w,
    stmts = done ++ todo ->
    (forall x, In x done -> created x (remote w) = true) ->
    (forall s, created s (remote w) = true ->
               created s (remote (apply_loop total i todo w)) = true)
    /\ (forall s, In s todo ->
                  created s (remote (apply_loop total i todo w)) = true)
    /\ exists os,
         outcomes (apply_loop total i todo w) = outcomes w ++ os
         /\ length os = length todo
         /\ Forall clean os
         /\ ((forall s, In s todo -> created s (remote w) = true) ->
             Forall (eq SkippedIdempotent) os)
         /\ (created (hd [] todo) (remote w) = false -> todo <> [] ->
             hd SkippedIdempotent os = Applied).
Proof.
  intros Hwf. induction Hwf as [|s todo Hs Hwf IH]; intros done i w Hdec Hdone;
    cbn [apply_loop].
  - repeat split; auto; try contradiction.
    exists []. rewrite app_nil_r. repeat split; auto.
    intros _ H. congruence.
  - destruct (create_style_step total i done s todo w Hdec Hdone Hs)
      as [M [C O]].
    assert (Hdec' : stmts = (done ++ [s]) ++ todo)
      by (now rewrite <- app_assoc).
    assert (Hdone' : forall x, In x (done ++ [s]) ->
                               created x (remote (apply_step total i s w))
                               = true).
    { intros x Hx. apply in_app_or in Hx as [Hx|[<-|[]]]; auto. }
    destruct (IH (done ++ [s]) (S i) (apply_step total i s w) Hdec' Hdone')
      as [M' [A [os [O' [L [Hclean [Hskip _]]]]]]].
    split; [auto|]. split.
    + intros x [<-|Hx]; auto.
    + eexists. rewrite O', O, <- app_assoc. split; [reflexivity|].
      split; [simpl; now rewrite L|]. split; [|split].
      * constructor; [|exact Hclean].
        unfold clean. destruct (created s (remote w)); auto.
      * intros Hall. constructor.
        -- rewrite (Hall s) by now left. reflexivity.
        -- apply Hskip. intros x Hx. apply M. apply Hall. now right.
      * cbn [hd app]. now intros ->.
Qed.

Lemma clean_counts (os : list ApplyResult) :
  Forall clean os -> count is_failed os = 0.
Proof.
  unfold count. induction 1 as [|o os [-> | ->] _ IH]; simpl; auto.
Qed.

Lemma skipped_counts (os : list ApplyResult) :
  Forall (eq SkippedIdempotent) os ->
  count is_applied os = 0 /\ count is_skipped os = length os.
Proof.
  unfold count. induction 1 as [|o os <- _ [IH1 IH2]]; simpl; auto.
Qed.

Hypothesis tables_created : CreatesDrillTables created stmts.

Lemma count_rows_ok (table : str) (w : World Line) :
  In table [drill_scenarios; drill_runs; drill_executions;
            drill_evaluations] ->
  (forall s, In s stmts -> created s (remote w) = true) ->
  exists n w',
    count_rows table w = (Ok n, w')
    /\ (forall s, created s (remote w) = true -> created s (remote w') = true)
    /\ stdout w' = stdout w
    /\ outcomes w' = outcomes w.
Proof.
  intros Hin Hall.
  destruct (tables_created table (remote w) Hin Hall) as [n [r' [E M]]].
  exists n, (sent (CountRows table) r' w).
  unfold count_rows. rewrite E. repeat split; auto.
Qed.

Lemma verify_tables_ok (w : World Line) :
  (forall s, In s stmts -> created s (remote w) = true) ->
  exists w',
    verify_tables w = (Ok tt, w')
    /\ (forall s, created s (remote w) = true -> created s (remote w') = true)
    /\ In AllVerified (stdout w')
    /\ outcomes w' = outcomes w.
Proof.
  intros Hall. unfold verify_tables, bind.
  destruct (count_rows_ok drill_scenarios w) as [n1 [w1 [E1 [M1 [S1 O1]]]]];
    [simpl; auto|exact Hall|]. rewrite E1.
  destruct (count_rows_ok drill_runs w1) as [n2 [w2 [E2 [M2 [S2 O2]]]]];
    [simpl; auto|auto|]. rewrite E2.
  destruct (count_rows_ok drill_executions w2) as [n3 [w3 [E3 [M3 [S3 O3]]]]];
    [simpl; auto|auto|]. rewrite E3.
  destruct (count_rows_ok drill_evaluations w3) as [n4 [w4 [E4 [M4 [S4 O4]]]]];
    [simpl; auto 6|auto|]. rewrite E4.
  eexists. split; [reflexivity|]. cbn [remote stdout outcomes print].
  split; [auto 6|]. split; [|congruence].
  apply in_or_app. right. now left.
Qed.

End Idempotence.

Lemma try_body_unfold {sb : Supabase} {cs : Casing} (sql : str)
      (w : World ApplyMigration.Line) :
  ApplyMigration.try_body sql w
  = ApplyMigration.verify_tables
      (print ApplyMigration.VerifyingTables
         (print ApplyMigration.MigrationApplied
            (ApplyMigration.apply_loop
               (length (statements sql)) 1 (statements sql)
               (print (ApplyMigration.Executing (length (statements sql)))
                      w)))).
Proof. reflexivity. Qed.

Section Rerun.

Context {sb : Supabase} {cs : Casing}.

Import ApplyMigration.


End Rerun.

(** *** Twice on a database with dependencies *)

Lemma mem_In (s : str) (l : list str) : mem s l = true <-> In s l.
Proof.
  induction l as [|x l IH]; cbn [mem In]; [split; [discriminate|tauto]|].
  destruct (list_eq_dec N.eq_dec s x) as [->|Hne]; cbn [orb].
  - tauto.
  - rewrite IH. split; [auto|]. intros [Hx|Hl]; [congruence|exact Hl].
Qed.

Lemma drill_statements :
  statements drill_migration
  = [create_table drill_scenarios; create_table drill_runs;
     create_table drill_executions; create_table drill_evaluations].
Proof. reflexivity. Qed.

Lemma indexed_statements :
  statements indexed_migration
  = [create_table drill_scenarios; create_table drill_runs;
     create_table drill_executions; create_table drill_evaluations;
     create_index].
Proof. reflexivity. Qed.

(** The index cannot be created before its table. *)
Lemma index_needs_table :
  rpc_exec_sql (Supabase := relational) create_index empty_relational
  = (Raise no_relation, empty_relational).
Proof. reflexivity. Qed.

(** A CREATE statement on a database that holds what it needs. *)
Lemma relational_create (sql : str) (r : Remote (Supabase := relational)) :
  Py.startswith sql (u "CREATE") = true ->
  Py.startswith sql (u "CREATE INDEX") = false
  \/ mem (create_table drill_runs) r = true ->
  rpc_exec_sql (Supabase := relational) sql r
  = if mem sql r then (Raise relation_exists, r) else (Ok tt, sql :: r).
Proof.
  intros Hc Hdep. cbn [rpc_exec_sql relational]. rewrite Hc.
  destruct Hdep as [->| ->]; [reflexivity|].
  now rewrite andb_false_r.
Qed.

(** Every statement of the script, with the statements before it. *)
Lemma indexed_positions (before : list str) (s : str) (after : list str)
      (r : Remote (Supabase := relational)) :
  statements indexed_migration = before ++ s :: after ->
  (forall x, In x before -> mem x r = true) ->
  Py.startswith s (u "CREATE") = true
  /\ (Py.startswith s (u "CREATE INDEX") = false
      \/ mem (create_table drill_runs) r = true).
Proof.
  rewrite indexed_statements. intros Hdec Hbefore.
  destruct before as [|x1 before]; cbn [app] in Hdec;
    [injection Hdec as <- _; split; [reflexivity|now left]|].
  destruct before as [|x2 before]; cbn [app] in Hdec;
    [injection Hdec as _ <- _; split; [reflexivity|now left]|].
  destruct before as [|x3 before]; cbn [app] in Hdec;
    [injection Hdec as _ _ <- _; split; [reflexivity|now left]|].
  destruct before as [|x4 before]; cbn [app] in Hdec;
    [injection Hdec as _ _ _ <- _; split; [reflexivity|now left]|].
  destruct before as [|x5 before]; cbn [app] in Hdec.
  - injection Hdec as _ H2 _ _ <- _. split; [reflexivity|]. right.
    apply Hbefore. subst x2. simpl. auto.
  - exfalso. injection Hdec as _ _ _ _ _ H.
    destruct before; discriminate H.
Qed.

Lemma relational_create_style :
  @CreateStyle relational ascii_casing mem (statements indexed_migration).
Proof.
  split.
  - intros before s after r Hdec Hbefore Hfresh. exists (s :: r).
    destruct (indexed_positions before s after r Hdec Hbefore) as [Hc Hdep].
    rewrite (relational_create s r Hc Hdep), Hfresh.
    split; [reflexivity|]. split.
    + apply mem_In. now left.
    + intros s' Hs'. apply mem_In. right. now apply mem_In.
  - intros before s after r Hdec Hbefore Hthere. exists relation_exists, r.
    destruct (indexed_positions before s after r Hdec Hbefore) as [Hc Hdep].
    rewrite (relational_create s r Hc Hdep), Hthere.
    repeat split; auto.
Qed.

Lemma relational_creates_tables :
  @CreatesDrillTables relational mem (statements indexed_migration).
Proof.
  rewrite indexed_statements. intros table r Hin Hall.
  exists 0%Z, r. split; [|auto].
  cbn [table_count relational].
  assert (H : existsb (Py.contains table) r = true).
  { apply existsb_exists. exists (create_table table). split.
    - apply mem_In, Hall.
      destruct Hin as [<-|[<-|[<-|[<-|[]]]]]; simpl; auto.
    - destruct Hin as [<-|[<-|[<-|[<-|[]]]]]; reflexivity. }
  now rewrite H.
Qed.


(** ** More on the statement splitter *)

Lemma push_app (c : char) (l m : list str) :
  l <> [] -> Py.push c (l ++ m) = Py.push c l ++ m.
Proof. destruct l; [congruence|reflexivity]. Qed.

(** Splitting on [';'] goes through a [';'] of the text. *)
Lemma split_semicolon_app (a b : str) :
  Py.split (a ++ semi :: b) semicolon
  = Py.split a semicolon ++ Py.split b semicolon.
Proof.
  unfold Py.split.
  induction a as [|c a IH]; cbn [app Py.split_from].
  - rewrite startswith_semicolon, N.eqb_refl. reflexivity.
  - rewrite !startswith_semicolon.
    destruct (N.eqb c semi); cbn [length semicolon Nat.sub].
    + now rewrite IH.
    + rewrite IH. apply push_app, split_from_nonempty.
Qed.

(** X1.  The statements of two texts joined by a [';'] are the
    statements of the first followed by the statements of the second;
    so a [';'] at the end of the text adds no statement. *)
Theorem statements_of_joined_texts (a b : str) :
  statements (a ++ semi :: b) = statements a ++ statements b
  /\ statements (a ++ semicolon) = statements a.
Proof.
  assert (H : forall x y,
             statements (x ++ semi :: y) = statements x ++ statements y).
  { intros x y. unfold statements.
    now rewrite split_semicolon_app, flat_map_app. }
  split; [apply H|].
  unfold semicolon. rewrite H. apply app_nil_r.
Qed.

Lemma lstrip_clean (s : str) : starts_clean s = true -> Py.lstrip s = s.
Proof.
  destruct s as [|c s]; [reflexivity|]. cbn [starts_clean Py.lstrip].
  intros H. apply negb_true_iff in H. now rewrite H.
Qed.

Lemma strip_of_trimmed (s : str) : trimmed s = true -> Py.strip s = s.
Proof.
  unfold trimmed. intros H. apply andb_prop in H as [H1 H2].
  unfold Py.strip, Py.rstrip.
  rewrite (lstrip_clean s H1), (lstrip_clean (rev s) H2).
  apply rev_involutive.
Qed.

(** X2.  Every statement the splitter gives is not empty, is no comment
    line and has no whitespace at either end, so that trimming it again
    changes nothing; and the body of the loop never takes the
    [continue] of line 44 on it. *)
Theorem statements_are_clean {sb : Supabase} {cs : Casing}
        (migration_sql : str) :
  Forall (fun s =>
            s <> []
            /\ Py.startswith s comment_marker = false
            /\ Py.strip s = s
            /\ forall total i w,
                 calls (ApplyMigration.apply_step total i s w)
                 = calls w ++ [ExecSql s])
         (statements migration_sql).
Proof.
  unfold statements. rewrite statements_filter_map.
  apply Forall_forall. intros s Hs.
  apply filter_In in Hs as [Hs Hst].
  apply in_map_iff in Hs as [f [<- _]].
  pose proof Hst as Hst'. unfold is_statement in Hst'.
  apply andb_prop in Hst' as [Ht Hc]. apply negb_true_iff in Hc.
  split; [intros E; rewrite E in Ht; discriminate|].
  split; [exact Hc|]. split.
  - apply strip_of_trimmed, strip_trimmed.
  - intros total i w.
    destruct (apply_step_effect total i (Py.strip f) w Hst)
      as [? ? _ _ ->|? ? _ _ ->|? ? _ _ ->]; reflexivity.
Qed.

(** ** The project reference (line 19 of [apply_migration_simple.py]) *)

Lemma push_length (c : char) (l : list str) :
  l <> [] -> length (Py.push c l) = length l.
Proof. destruct l; [congruence|reflexivity]. Qed.

(** A split gives one fragment exactly when the separator does not
    occur. *)
Lemma split_single (sep s : str) :
  sep <> [] ->
  (length (Py.split s sep) = 1 <-> Py.contains sep s = false).
Proof.
  intros Hsep. unfold Py.split.
  induction s as [|c s IH]; cbn [Py.split_from Py.contains].
  - destruct sep; [congruence|]. cbn. tauto.
  - destruct (Py.startswith (c :: s) sep) eqn:E; cbn [orb length].
    + pose proof (split_from_nonempty sep s (length sep - 1)) as Hn.
      destruct (Py.split_from sep (length sep - 1) s); [congruence|].
      cbn [length]. split; [lia|discriminate].
    + rewrite push_length by apply split_from_nonempty. exact IH.
Qed.

(** A stretch without the first code point of the separator stays in
    the first fragment. *)
Lemma split_from_stretch (h : char) (sep' a t : str) :
  Forall (fun c => c <> h) a ->
  Py.split_from (h :: sep') 0 (a ++ t)
  = (a ++ hd [] (Py.split_from (h :: sep') 0 t))
      :: tl (Py.split_from (h :: sep') 0 t).
Proof.
  induction 1 as [|c a Hc _ IH]; cbn [app].
  - pose proof (split_from_nonempty (h :: sep') t 0) as Hn.
    now destruct (Py.split_from (h :: sep') 0 t).
  - cbn [Py.split_from Py.startswith].
    apply N.eqb_neq in Hc. rewrite Hc. cbn [andb].
    now rewrite IH.
Qed.

Lemma project_ref_none (SUPABASE_URL : str) :
  ApplyMigrationSimple.project_ref_of SUPABASE_URL = None
  <-> Py.contains (u "//") SUPABASE_URL = false.
Proof.
  unfold ApplyMigrationSimple.project_ref_of.
  rewrite <- (split_single (u "//") SUPABASE_URL) by discriminate.
  pose proof (split_from_nonempty (u "//") SUPABASE_URL 0) as Hn.
  fold (Py.split SUPABASE_URL (u "//")) in Hn.
  destruct (Py.split SUPABASE_URL (u "//")) as [|f [|g fs]];
    [congruence| |]; cbn [nth_error length].
  - tauto.
  - split; [discriminate|lia].
Qed.

(** X3.  The project reference cannot be taken, and line 19 raises
    IndexError, exactly when the URL holds no ["//"]. *)
Theorem project_ref_needs_slashes (SUPABASE_URL : str) :
  ApplyMigrationSimple.project_ref_of SUPABASE_URL = None
  <-> Py.contains (u "//") SUPABASE_URL = false.
Proof. apply project_ref_none. Qed.

Lemma split_from_at_slashes (t : str) :
  Py.split_from [slash; slash] 0 (slash :: slash :: t)
  = [] :: Py.split_from [slash; slash] 0 t.
Proof. now destruct t. Qed.

Lemma split_from_at_dot (t : str) :
  Py.split_from [dot] 0 (dot :: t) = [] :: Py.split_from [dot] 0 t.
Proof. now destruct t. Qed.

(** X4.  For a URL [scheme//ref.rest] whose scheme holds no slash and
    whose [ref] holds neither a slash nor a dot, the project reference
    is [ref]. *)
Theorem project_ref_of_plain_url (scheme ref rest : str) :
  ~ In slash scheme ->
  ~ In slash ref ->
  ~ In dot ref ->
  ApplyMigrationSimple.project_ref_of
    (scheme ++ u "//" ++ ref ++ dot :: rest)
  = Some ref.
Proof.
  intros Hs Hr Hd.
  assert (F : forall (x : char) (l : str),
             ~ In x l -> Forall (fun c => c <> x) l).
  { intros x l H. apply Forall_forall. intros c Hc ->. exact (H Hc). }
  unfold ApplyMigrationSimple.project_ref_of, Py.split.
  change (u "//") with [slash; slash]. change (u ".") with [dot].
  rewrite (split_from_stretch slash [slash] scheme _ (F _ _ Hs)).
  cbn [app]. rewrite split_from_at_slashes. cbn [hd tl nth_error].
  replace (ref ++ dot :: rest) with ((ref ++ [dot]) ++ rest)
    by (now rewrite <- app_assoc).
  assert (Hrd : Forall (fun c => c <> slash) (ref ++ [dot])).
  { apply Forall_app. split; [apply F, Hr|].
    repeat constructor. discriminate. }
  rewrite (split_from_stretch slash [slash] _ rest Hrd).
  rewrite <- !app_assoc. cbn [app].
  rewrite (split_from_stretch dot [] ref _ (F _ _ Hd)).
  rewrite split_from_at_dot. cbn [hd].
  now rewrite app_nil_r.
Qed.

Lemma project_ref_of_plain_url_witness :
  ~ In slash (u "https:")
  /\ ApplyMigrationSimple.project_ref_of
       (u "https:" ++ u "//" ++ u "abcdefgh" ++ dot :: u "supabase.co/rest//v1")
     = Some (u "abcdefgh").
Proof.
  assert (N : forall (x : char) (l : str),
             existsb (N.eqb x) l = false -> ~ In x l).
  { intros x l H Hin.
    assert (E : existsb (N.eqb x) l = true)
      by (apply existsb_exists; exists x; split;
          [exact Hin|apply N.eqb_refl]).
    congruence. }
  split; [apply N; reflexivity|].
  apply project_ref_of_plain_url; apply N; reflexivity.
Defined.

(** ** How the scripts end *)

Section Exits.

Context {sb : Supabase} {cs : Casing}.

(** X5.  [apply_migration.py] runs to its last line exactly when both
    credentials are set, the client can be created and the migration
    file can be read; whatever the database answers afterwards does not
    stop it.  When it dies, it has sent no request and the database is
    as it was. *)
Theorem apply_migration_exits (env : Env) (r : Remote) :
  (fst (ApplyMigration.main env r) = Finished
   <-> credentials_set env = true
       /\ create_client (getenv (NEXT_PUBLIC_SUPABASE_URL env))
                        (getenv (SUPABASE_SERVICE_ROLE_KEY env)) = Ok tt
       /\ migration_file env <> None)
  /\ (fst (ApplyMigration.main env r) <> Finished ->
      calls (snd (ApplyMigration.main env r)) = []
      /\ remote (snd (ApplyMigration.main env r)) = r).
Proof.
  unfold ApplyMigration.main, credentials_set.
  destruct (NEXT_PUBLIC_SUPABASE_URL env) as [url|],
           (SUPABASE_SERVICE_ROLE_KEY env) as [key|];
    cbn [Py.truthy_opt getenv andb];
    try (split; [split; [discriminate|intros [H _]; discriminate]|auto]);
    try (split; [split; [discriminate
                        |intros [H _]; rewrite andb_false_r in H;
                         discriminate]|auto]).
  destruct (Py.truthy url), (Py.truthy key); cbn [negb orb andb];
    try (split; [split; [discriminate|intros [H _]; discriminate]|auto]).
  destruct (create_client url key) as [[]|e];
    [|split; [split; [discriminate|intros [_ [H _]]; discriminate]|auto]].
  destruct (migration_file env) as [sql|];
    [|split; [split; [discriminate|intros [_ [_ H]]; congruence]|auto]].
  destruct (ApplyMigration.try_body sql _) as [[[]|e] w]; cbn [fst snd];
    (split; [split; [intros _; repeat split; discriminate|reflexivity]
            |congruence]).
Qed.

(** X6.  [apply_migration_simple.py] runs to its last line exactly when
    both credentials are set, the URL holds a ["//"] and the migration
    file can be read; an error of the client or of the database does
    not stop it.  It dies of IndexError exactly when the credentials
    are set and the URL holds no ["//"].  When it dies, it has sent no
    request. *)
Theorem simple_exits (env : Env) (r : Remote) :
  (fst (ApplyMigrationSimple.main env r) = Finished
   <-> credentials_set env = true
       /\ Py.contains (u "//") (getenv (NEXT_PUBLIC_SUPABASE_URL env)) = true
       /\ migration_file env <> None)
  /\ (fst (ApplyMigrationSimple.main env r) = Uncaught IndexError
      <-> credentials_set env = true
          /\ Py.contains (u "//") (getenv (NEXT_PUBLIC_SUPABASE_URL env))
             = false)
  /\ (fst (ApplyMigrationSimple.main env r) <> Finished ->
      calls (snd (ApplyMigrationSimple.main env r)) = []
      /\ remote (snd (ApplyMigrationSimple.main env r)) = r).
Proof.
  unfold ApplyMigrationSimple.main, credentials_set.
  destruct (NEXT_PUBLIC_SUPABASE_URL env) as [url|],
           (SUPABASE_SERVICE_ROLE_KEY env) as [key|];
    cbn [Py.truthy_opt getenv andb fst snd];
    try (repeat split; try discriminate; try tauto;
         intros [H _]; try rewrite andb_false_r in H; discriminate).
  destruct (Py.truthy url), (Py.truthy key); cbn [negb orb andb fst snd];
    try (repeat split; try discriminate; try tauto;
         intros [H _]; discriminate).
  pose proof (project_ref_none url) as Hnone.
  destruct (ApplyMigrationSimple.project_ref_of url) as [ref|];
    cbn [fst snd].
  - assert (Hc : Py.contains (u "//") url = true).
    { destruct (Py.contains (u "//") url); [reflexivity|].
      destruct Hnone as [_ H]. discriminate (H eq_refl). }
    destruct (migration_file env) as [sql|]; cbn [fst snd].
    + repeat split; try discriminate; try congruence.
      intros [_ H]. congruence.
    + repeat split; try discriminate; try congruence.
      * intros [_ [_ H]]. congruence.
      * intros [_ H]. congruence.
  - assert (Hc : Py.contains (u "//") url = false) by now apply Hnone.
    repeat split; try discriminate; try congruence.
    intros [_ [H _]]. congruence.
Qed.

End Exits.

(** ** What the apply loop depends on *)

Section LoopFacts.

Context {sb : Supabase} {cs : Casing}.

Import ApplyMigration.

(** The outcome of a pass through the loop body and the database it
    leaves depend on the database and the statement only, not on the
    number of the statement, the total or what was printed before. *)
Lemma step_independent (total total' i i' : nat) (statement : str)
      (w w' : World Line) :
  remote w = remote w' ->
  exists os,
    outcomes (apply_step total i statement w) = outcomes w ++ os
    /\ outcomes (apply_step total' i' statement w') = outcomes w' ++ os.
Proof.
  intros H. unfold apply_step.
  destruct (negb (Py.truthy statement)
            || Py.startswith statement comment_marker).
  - exists []. now rewrite !app_nil_r.
  - rewrite H.
    destruct (rpc_exec_sql statement (remote w')) as [[[]|e] r1].
    + exists [Applied].
      now destruct (i mod 10 =? 0), (i' mod 10 =? 0).
    + destruct (reportable (lower e)); eexists; split; reflexivity.
Qed.

Lemma loop_independent (total total' : nat) (stmts : list str) :
  forall i i' (w w' : World Line),
    remote w = remote w' ->
    exists os,
      outcomes (apply_loop total i stmts w) = outcomes w ++ os
      /\ outcomes (apply_loop total' i' stmts w') = outcomes w' ++ os.
Proof.
  induction stmts as [|s stmts IH]; intros i i' w w' H; cbn [apply_loop].
  - exists []. now rewrite !app_nil_r.
  - destruct (step_independent total total' i i' s w w' H) as [o [E E']].
    destruct (IH (S i) (S i') _ _ (remote_step total total' i i' s w w' H))
      as [os [F F']].
    exists (o ++ os). rewrite F, F', E, E'. now rewrite <- !app_assoc.
Qed.

(** X7.  A run over [a ++ b] is a run over [a] followed by a run over
    [b] on the database the first run left: the outcomes are those of
    the two runs one after the other, and so are the statements sent
    and the final database. *)
Theorem apply_of_concatenation (a b : list str) (r : Remote) :
  outcomes (apply (a ++ b) r)
  = outcomes (apply a r) ++ outcomes (apply b (remote (apply a r)))
  /\ submitted (apply (a ++ b) r)
     = submitted (apply a r) ++ submitted (apply b (remote (apply a r)))
  /\ remote (apply (a ++ b) r)
     = remote (apply b (remote (apply a r))).
Proof.
  unfold apply. rewrite apply_loop_app.
  set (n := length (a ++ b)).
  set (wa := apply_loop n 1 a (start r)).
  assert (Ha : remote wa = remote (apply_loop (length a) 1 a (start r)))
    by now apply remote_loop.
  destruct (loop_independent n (length a) a 1 1 (start r) (start r) eq_refl)
    as [oa [Ea Ea']].
  fold wa in Ea. cbn [outcomes start app] in Ea, Ea'.
  set (ra := remote (apply_loop (length a) 1 a (start r))) in *.
  assert (Hb : remote wa = remote (start (Line := Line) ra)) by exact Ha.
  destruct (loop_independent n (length b) b (1 + length a) 1 wa
                             (start ra) Hb) as [ob [Eb Eb']].
  cbn [outcomes start app] in Eb'.
  split; [now rewrite Eb, Ea, Ea', Eb'|]. split.
  - rewrite !submitted_loop. subst wa. rewrite submitted_loop.
    unfold submitted. cbn [calls start flat_map app]. reflexivity.
  - now apply remote_loop.
Qed.

(** X8.  The database a run leaves is the one reached by executing, one
    after the other and each on the database the previous one left, the
    statements that are not empty and no comment; a statement that
    raises neither stops the run nor is tried again. *)
Theorem apply_threads_database (stmts : list str) (r : Remote) :
  remote (apply stmts r)
  = fold_left (fun db statement => snd (rpc_exec_sql statement db))
              (filter is_statement stmts) r.
Proof.
  unfold apply. generalize (length stmts) as total.
  intros total. change r with (remote (start (Line := Line) r)) at 2.
  generalize (start (Line := Line) r) as w. generalize 1 as i.
  induction stmts as [|s stmts IH]; intros i w; cbn [apply_loop filter];
    [reflexivity|].
  rewrite IH. destruct (is_statement s) eqn:H.
  - cbn [fold_left]. f_equal.
    destruct (apply_step_effect total i s w H)
      as [? ? E _ ->|? ? E _ ->|? ? E _ ->]; now rewrite E.
  - now rewrite apply_step_skip.
Qed.

End LoopFacts.

(** ** What the apply loop prints *)

Section LoopOutput.

Context {sb : Supabase} {cs : Casing}.

Import ApplyMigration.

Lemma reasons_app (a b : list ApplyResult) :
  reasons (a ++ b) = reasons a ++ reasons b.
Proof. apply flat_map_app. Qed.

Lemma points_at_later (i : nat) (s : str) (stmts : list str)
      (d : nat * str * str) :
  points_at (S i) stmts d -> points_at i (s :: stmts) d.
Proof.
  intros [Hle [st [Hn Hd]]]. split; [lia|]. exists st. split; [|exact Hd].
  replace (fst (fst d) - i) with (S (fst (fst d) - S i)) by lia.
  exact Hn.
Qed.

(** The reports and the outcomes of a run of the loop, side by side. *)
Lemma loop_reports (total : nat) (stmts : list str) :
  forall i w,
    settled (stdout w) ->
    exists rep os,
      reported (stdout (apply_loop total i stmts w))
      = reported (stdout w) ++ rep
      /\ outcomes (apply_loop total i stmts w) = outcomes w ++ os
      /\ reported_errors rep = reasons os
      /\ Forall (points_at i stmts) rep.
Proof.
  induction stmts as [|s stmts IH]; intros i w Hs; cbn [apply_loop].
  - exists [], []. rewrite !app_nil_r. repeat split; constructor.
  - destruct (is_statement s) eqn:H.
    + destruct (report_step total i s w Hs H) as [Hs' R].
      destruct (IH (S i) _ Hs') as [rep [os [R' [O' [Q P]]]]].
      assert (Hp : Forall (points_at i (s :: stmts)) rep).
      { eapply Forall_impl; [|exact P]. intros d. apply points_at_later. }
      destruct (apply_step_effect total i s w H)
        as [r l E _ Hw|r e E Hr Hw|r e E Hr Hw];
        rewrite E in R; cbn [fst step_report] in R; try rewrite Hr in R;
        rewrite R', R, O', Hw; cbn [outcomes]; rewrite <- !app_assoc.
      * exists rep, (Applied :: os). repeat split; auto.
      * exists rep, (SkippedIdempotent :: os). repeat split; auto.
      * exists ((i, e, Py.slice_to 100 s) :: rep), (Failed e :: os).
        repeat split; auto.
        -- unfold reported_errors, reasons in *.
           cbn [map flat_map app fst snd]. now f_equal.
        -- constructor; [|exact Hp].
           split; [cbn; lia|]. exists s. cbn [fst snd].
           rewrite Nat.sub_diag. repeat split.
           apply firstn_le_length.
    + rewrite apply_step_skip by exact H.
      destruct (IH (S i) w Hs) as [rep [os [R' [O' [Q P]]]]].
      exists rep, os. repeat split; auto.
      eapply Forall_impl; [|exact P]. intros d. apply points_at_later.
Qed.

Lemma reasons_length (os : list ApplyResult) :
  length (reasons os) = count is_failed os.
Proof.
  unfold reasons, count.
  induction os as [|[| |e] os IH]; cbn; auto.
Qed.

(** X9.  For every list of statements and every executor, the failures
    the loop prints (lines 58-59) are the failed outcomes, in order and
    with the same error messages: as many warnings are printed as
    statements failed. *)
Theorem reports_match_failures (stmts : list str) (r : Remote) :
  let sm := summary stmts (apply stmts r) in
  reported_errors (failed_details sm) = reasons (outcomes (apply stmts r))
  /\ length (failed_details sm) = failed_count sm.
Proof.
  cbn [summary failed_details failed_count]. unfold apply.
  destruct (loop_reports (length stmts) stmts 1 (start r) settled_nil)
    as [rep [os [R [O [Q _]]]]].
  rewrite R, O. cbn [stdout outcomes start reported app].
  split; [exact Q|].
  rewrite <- reasons_length, <- Q. unfold reported_errors.
  now rewrite length_map.
Qed.

(** X10.  Every failure the loop prints points at a statement of the
    list: its number is the position of the statement, counted from 1,
    and its text is the first 100 characters of that statement, never
    more. *)
Theorem reports_point_at_statements (stmts : list str) (r : Remote) :
  Forall (points_at 1 stmts)
         (failed_details (summary stmts (apply stmts r))).
Proof.
  cbn [summary failed_details]. unfold apply.
  destruct (loop_reports (length stmts) stmts 1 (start r) settled_nil)
    as [rep [os [R [_ [_ P]]]]].
  rewrite R. exact P.
Qed.

Lemma progress_step (total i : nat) (statement : str) (w : World Line) :
  1 <= i <= total ->
  Forall (progress_in_step total) (stdout w) ->
  Forall (progress_in_step total) (stdout (apply_step total i statement w)).
Proof.
  intros Hi Hw. unfold apply_step.
  destruct (negb (Py.truthy statement)
            || Py.startswith statement comment_marker); [exact Hw|].
  destruct (rpc_exec_sql statement (remote w)) as [[[]|e] r1].
  - destruct (i mod 10 =? 0) eqn:E; cbn [stdout tally print sent];
      [|exact Hw].
    apply Forall_app. split; [exact Hw|]. constructor; [|constructor].
    apply Nat.eqb_eq in E. cbn [progress_in_step].
    assert (10 <= i).
    { destruct (Nat.lt_ge_cases i 10) as [Hlt|]; [|assumption].
      rewrite Nat.mod_small in E by exact Hlt. lia. }
    repeat split; try assumption; lia.
  - destruct (reportable (lower e)); cbn [stdout tally print sent];
      [|exact Hw].
    rewrite <- app_assoc. apply Forall_app. split; [exact Hw|].
    constructor; [exact I|]. constructor; [exact I|constructor].
Qed.

Lemma progress_loop (total : nat) (stmts : list str) :
  forall i w,
    1 <= i ->
    i + length stmts <= S total ->
    Forall (progress_in_step total) (stdout w) ->
    Forall (progress_in_step total) (stdout (apply_loop total i stmts w)).
Proof.
  induction stmts as [|s stmts IH]; intros i w Hi Hn Hw;
    cbn [apply_loop length] in *; [exact Hw|].
  apply IH; [lia|lia|]. apply progress_step; [lia|exact Hw].
Qed.

(** X11.  A progress line is printed only for a statement whose number
    is a multiple of ten, between 10 and the total, and it shows that
    total; a run of fewer than ten statements prints none. *)
Theorem progress_every_tenth (stmts : list str) (r : Remote) :
  Forall (progress_in_step (length stmts)) (stdout (apply stmts r))
  /\ (length stmts < 10 ->
      forall i total, ~ In (Progress i total) (stdout (apply stmts r))).
Proof.
  assert (H : Forall (progress_in_step (length stmts))
                     (stdout (apply stmts r))).
  { unfold apply. apply progress_loop; [lia|lia|constructor]. }
  split; [exact H|]. intros Hlt i total Hin.
  rewrite Forall_forall in H. apply H in Hin. cbn in Hin. lia.
Qed.

End LoopOutput.

Lemma progress_every_tenth_witness :
  length three_statements < 10
  /\ forall i total,
       ~ In (ApplyMigration.Progress i total) (stdout scratch_run).
Proof.
  assert (H : length three_statements < 10) by (cbn; lia).
  split; [exact H|].
  exact (proj2 (@progress_every_tenth scratch ascii_casing
                                      three_statements empty_db) H).
Defined.

(** ** The whole of [apply_migration.py] *)

Section WholeScript.

Context {sb : Supabase} {cs : Casing}.

Import ApplyMigration.

Lemma table_lines_app (a b : list Line) :
  table_lines (a ++ b) = table_lines a ++ table_lines b.
Proof. apply flat_map_app. Qed.

Lemma quiet_table_lines (out : list Line) :
  Forall quiet out -> table_lines out = [] /\ ~ In AllVerified out.
Proof.
  induction 1 as [|l out Hl _ [IH1 IH2]]; [split; [reflexivity|tauto]|].
  split.
  - unfold table_lines in *. cbn [flat_map]. rewrite IH1.
    destruct l; try reflexivity; contradiction.
  - intros [->|Hin]; [exact Hl|exact (IH2 Hin)].
Qed.

(** Lines 75-85 either count all four tables and print their statuses,
    or stop at the first count that raises and print nothing. *)
Lemma verify_tables_outcome (w : World Line) :
  (forallb ApplyMigrationSimple.exists_
           (verify_spec drill_tables (remote w)) = true
   /\ exists w' lines,
        verify_tables w = (Ok tt, w')
        /\ stdout w' = stdout w ++ lines ++ [AllVerified]
        /\ table_lines lines = verify_spec drill_tables (remote w)
        /\ calls w' = calls w ++ map CountRows drill_tables
        /\ outcomes w' = outcomes w)
  \/ (forallb ApplyMigrationSimple.exists_
              (verify_spec drill_tables (remote w)) = false
      /\ exists e w' k,
           verify_tables w = (Raise e, w')
           /\ stdout w' = stdout w
           /\ 1 <= k <= 4
           /\ calls w' = calls w ++ map CountRows (firstn k drill_tables)
           /\ outcomes w' = outcomes w).
Proof.
  unfold verify_tables, bind, count_rows, say, drill_tables.
  cbn [verify_spec].
  destruct (table_count drill_scenarios (remote w)) as [[n1|e1] r1];
    cbn [remote sent];
    [|right; split; [reflexivity|];
      exists e1; eexists; exists 1; repeat split; lia].
  destruct (table_count drill_runs r1) as [[n2|e2] r2];
    cbn [remote sent];
    [|right; split; [reflexivity|];
      exists e2; eexists; exists 2; (split; [reflexivity|]);
      cbn [calls sent stdout outcomes]; rewrite <- ?app_assoc;
      repeat split; lia].
  destruct (table_count drill_executions r2) as [[n3|e3] r3];
    cbn [remote sent];
    [|right; split; [reflexivity|];
      exists e3; eexists; exists 3; (split; [reflexivity|]);
      cbn [calls sent stdout outcomes]; rewrite <- ?app_assoc;
      repeat split; lia].
  destruct (table_count drill_evaluations r3) as [[n4|e4] r4];
    cbn [remote sent];
    [|right; split; [reflexivity|];
      exists e4; eexists; exists 4; (split; [reflexivity|]);
      cbn [calls sent stdout outcomes]; rewrite <- ?app_assoc;
      repeat split; lia].
  left. split; [reflexivity|].
  eexists.
  exists [TableExists drill_scenarios n1; TableExists drill_runs n2;
          TableExists drill_executions n3; TableExists drill_evaluations n4].
  split; [reflexivity|].
  cbn [calls sent stdout outcomes print]. rewrite <- ?app_assoc.
  repeat split.
Qed.

(** Where the script stands when it has read the migration file, and how
    it goes on from there. *)
Lemma main_reaches_body (env : Env) (sql : str) (r : Remote) :
  credentials_set env = true ->
  create_client (getenv (NEXT_PUBLIC_SUPABASE_URL env))
                (getenv (SUPABASE_SERVICE_ROLE_KEY env)) = Ok tt ->
  migration_file env = Some sql ->
  exists w2,
    remote w2 = remote (apply (statements sql) r)
    /\ calls w2 = map ExecSql (statements sql)
    /\ outcomes w2 = outcomes (apply (statements sql) r)
    /\ Forall quiet (stdout w2)
    /\ In MigrationApplied (stdout w2)
    /\ main env r
       = (Finished,
          match verify_tables w2 with
          | (Ok _, w) => w
          | (Raise e, w) =>
              handler env (getenv (NEXT_PUBLIC_SUPABASE_URL env)) e w
          end).
Proof.
  unfold credentials_set, main. intros Hc Hcl Hf.
  destruct (NEXT_PUBLIC_SUPABASE_URL env) as [url|]; [|discriminate].
  destruct (SUPABASE_SERVICE_ROLE_KEY env) as [key|];
    [|rewrite andb_false_r in Hc; discriminate].
  cbn [Py.truthy_opt getenv] in *.
  apply andb_prop in Hc as [Hu Hk]. rewrite Hu, Hk, Hcl, Hf.
  cbn [negb orb].
  set (w0 := print ApplyingMigration
                   (print ReadingMigration
                          (print (Connecting url) (start r)))).
  set (stmts := statements sql).
  set (w1 := apply_loop (length stmts) 1 stmts
                        (print (Executing (length stmts)) w0)).
  exists (print VerifyingTables (print MigrationApplied w1)).
  cbn [remote calls outcomes stdout print].
  split; [subst w1; unfold apply; now apply remote_loop|].
  split.
  { subst w1. rewrite calls_loop. cbn.
    now rewrite filter_well_formed by apply statements_well_formed. }
  split.
  { subst w1. unfold apply.
    destruct (loop_independent (length stmts) (length stmts) stmts 1 1
                (print (Executing (length stmts)) w0) (start r) eq_refl)
      as [os [E E']].
    rewrite E, E'. reflexivity. }
  split.
  { repeat (apply Forall_app; split); try (repeat constructor).
    subst w1. apply quiet_loop. subst w0. cbn. repeat constructor. }
  split; [apply in_or_app; left; apply in_or_app; right; now left|].
  change (try_body sql w0)
    with (verify_tables (print VerifyingTables (print MigrationApplied w1))).
  now destruct (verify_tables _) as [[[]|e] w].
Qed.

Lemma handler_adds (env : Env) (url e : str) (w : World Line) :
  exists last,
    stdout (handler env url e w)
    = stdout w ++ [ErrorApplying e; TryingAlternative; last]
    /\ quiet last
    /\ calls (handler env url e w) = calls w
    /\ outcomes (handler env url e w) = outcomes w.
Proof.
  unfold handler. destruct (psycopg2_installed env);
    eexists; cbn [stdout calls outcomes print]; rewrite <- !app_assoc;
    repeat split.
Qed.

Lemma sent_statements (l : list str) :
  flat_map (fun c => match c with ExecSql sql => [sql] | _ => [] end)
           (map ExecSql l) = l.
Proof. induction l as [|x l IH]; cbn; [reflexivity|now f_equal]. Qed.

Lemma sent_no_statement (l : list str) :
  flat_map (fun c => match c with ExecSql sql => [sql] | _ => [] end)
           (map CountRows l) = [].
Proof. induction l as [|x l IH]; cbn; [reflexivity|exact IH]. Qed.

(** X12.  With the credentials set, the client created and the file
    read, the script prints "Migration applied successfully!" whatever
    the executor answered, also when it raised on every statement; by
    then every statement of the file has been sent once and has its
    outcome, the same as in a run of the loop alone. *)
Theorem applied_message_whatever_failed (env : Env) (sql : str)
        (r : Remote) :
  credentials_set env = true ->
  create_client (getenv (NEXT_PUBLIC_SUPABASE_URL env))
                (getenv (SUPABASE_SERVICE_ROLE_KEY env)) = Ok tt ->
  migration_file env = Some sql ->
  In MigrationApplied (stdout (snd (main env r)))
  /\ submitted (snd (main env r)) = statements sql
  /\ outcomes (snd (main env r)) = outcomes (apply (statements sql) r).
Proof.
  intros Hc Hcl Hf.
  destruct (main_reaches_body env sql r Hc Hcl Hf)
    as [w2 [_ [Hcalls [Hout [_ [Hin ->]]]]]].
  cbn [snd]. unfold submitted.
  destruct (verify_tables_outcome w2)
    as [[_ [w' [lines [-> [Hs [_ [Hk Ho]]]]]]]
       |[_ [e [w' [k [-> [Hs [_ [Hk Ho]]]]]]]]].
  - rewrite Hs, Hk, Ho, Hcalls, flat_map_app.
    rewrite sent_statements, sent_no_statement, app_nil_r.
    split; [apply in_or_app; now left|]. split; [reflexivity|exact Hout].
  - destruct (handler_adds env (getenv (NEXT_PUBLIC_SUPABASE_URL env)) e w')
      as [last [-> [_ [-> ->]]]].
    rewrite Hs, Hk, Ho, Hcalls, flat_map_app.
    rewrite sent_statements, sent_no_statement, app_nil_r.
    split; [apply in_or_app; now left|]. split; [reflexivity|exact Hout].
Qed.

(** The counts of lines 75-78 go on until one raises. *)
Lemma verify_tables_calls (w : World Line) :
  calls (snd (verify_tables w))
  = calls w
    ++ map CountRows
         (firstn (stop_at (verify_spec drill_tables (remote w)))
                 drill_tables).
Proof.
  unfold verify_tables, bind, count_rows, say, drill_tables.
  cbn [verify_spec].
  destruct (table_count drill_scenarios (remote w)) as [[n1|e1] r1];
    cbn [remote sent stop_at ApplyMigrationSimple.exists_ snd];
    [|reflexivity].
  destruct (table_count drill_runs r1) as [[n2|e2] r2];
    cbn [remote sent stop_at ApplyMigrationSimple.exists_ snd];
    [|cbn [calls sent firstn map]; now rewrite <- ?app_assoc].
  destruct (table_count drill_executions r2) as [[n3|e3] r3];
    cbn [remote sent stop_at ApplyMigrationSimple.exists_ snd];
    [|cbn [calls sent firstn map]; now rewrite <- ?app_assoc].
  destruct (table_count drill_evaluations r3) as [[n4|e4] r4];
    cbn [remote sent stop_at ApplyMigrationSimple.exists_ snd];
    cbn [calls sent print firstn map]; now rewrite <- ?app_assoc.
Qed.

(** The script either reaches the body of the [try] or dies without a
    request. *)
Lemma main_reaches_or_dies (env : Env) (r : Remote) :
  (credentials_set env = true
   /\ create_client (getenv (NEXT_PUBLIC_SUPABASE_URL env))
                    (getenv (SUPABASE_SERVICE_ROLE_KEY env)) = Ok tt
   /\ exists sql, migration_file env = Some sql)
  \/ (fst (main env r) <> Finished /\ calls (snd (main env r)) = []).
Proof.
  destruct (credentials_set env) eqn:Hc;
    [destruct (create_client (getenv (NEXT_PUBLIC_SUPABASE_URL env))
                             (getenv (SUPABASE_SERVICE_ROLE_KEY env)))
       as [[]|e0] eqn:Hcl;
     [destruct (migration_file env) as [sql|] eqn:Hf|]|].
  - left. repeat split. now exists sql.
  - right. unfold main, credentials_set in *.
    destruct (NEXT_PUBLIC_SUPABASE_URL env) as [url|];
      [|split; [discriminate|reflexivity]].
    destruct (SUPABASE_SERVICE_ROLE_KEY env) as [key|];
      [|split; [discriminate|reflexivity]].
    cbn [getenv] in Hcl.
    destruct (negb (Py.truthy url) || negb (Py.truthy key));
      [split; [discriminate|reflexivity]|].
    rewrite Hcl, Hf. split; [discriminate|reflexivity].
  - right. unfold main, credentials_set in *.
    destruct (NEXT_PUBLIC_SUPABASE_URL env) as [url|];
      [|split; [discriminate|reflexivity]].
    destruct (SUPABASE_SERVICE_ROLE_KEY env) as [key|];
      [|split; [discriminate|reflexivity]].
    cbn [getenv] in Hcl.
    destruct (negb (Py.truthy url) || negb (Py.truthy key));
      [split; [discriminate|reflexivity]|].
    rewrite Hcl. split; [discriminate|reflexivity].
  - right. unfold main, credentials_set in *.
    destruct (NEXT_PUBLIC_SUPABASE_URL env) as [url|];
      [|split; [discriminate|reflexivity]].
    destruct (SUPABASE_SERVICE_ROLE_KEY env) as [key|];
      [|split; [discriminate|reflexivity]].
    cbn [Py.truthy_opt] in Hc.
    destruct (Py.truthy url), (Py.truthy key); try discriminate;
      (split; [discriminate|reflexivity]).
Qed.

(** X13.  A run of the script that dies sends no request.  A run that
    goes to the end sends, first, every statement of the file in order,
    and only then the counts of the drill tables in their fixed order,
    stopping at the first count that raises: the tables asked for are
    those that can be counted in a row on the database the statements
    left, and the first one that cannot; all four when all can. *)
Theorem requests_statements_then_counts (env : Env) (r : Remote) :
  (fst (main env r) <> Finished -> calls (snd (main env r)) = [])
  /\ (forall sql,
        fst (main env r) = Finished ->
        migration_file env = Some sql ->
        let after := remote (apply (statements sql) r) in
        let k := stop_at (verify_spec drill_tables after) in
        1 <= k <= 4
        /\ (k = 4 \/
            nth_error (verify_spec drill_tables after) (k - 1)
            = option_map (fun table => (table, Missing))
                         (nth_error drill_tables (k - 1)))
        /\ calls (snd (main env r))
           = map ExecSql (statements sql)
             ++ map CountRows (firstn k drill_tables)).
Proof.
  destruct (main_reaches_or_dies env r)
    as [[Hc [Hcl [sql Hf]]]|[Hdies Hnone]].
  - destruct (main_reaches_body env sql r Hc Hcl Hf)
      as [w2 [Hrem [Hcalls [_ [_ [_ Hmain]]]]]].
    split; [rewrite Hmain; cbn [fst]; congruence|].
    intros sql' _ Hf' after k. subst after k.
    assert (sql' = sql) by congruence. subst sql'.
    rewrite <- Hrem. split; [|split].
    + clear. unfold drill_tables. cbn [verify_spec].
      destruct (table_count drill_scenarios (remote w2)) as [[?|?] r1];
        cbn [stop_at ApplyMigrationSimple.exists_ snd]; [|lia].
      destruct (table_count drill_runs r1) as [[?|?] r2];
        cbn [stop_at ApplyMigrationSimple.exists_ snd]; [|lia].
      destruct (table_count drill_executions r2) as [[?|?] r3];
        cbn [stop_at ApplyMigrationSimple.exists_ snd]; [|lia].
      destruct (table_count drill_evaluations r3) as [[?|?] r4];
        cbn [stop_at ApplyMigrationSimple.exists_ snd]; lia.
    + clear. unfold drill_tables. cbn [verify_spec].
      destruct (table_count drill_scenarios (remote w2)) as [[?|?] r1];
        cbn [stop_at ApplyMigrationSimple.exists_ snd];
        [|right; reflexivity].
      destruct (table_count drill_runs r1) as [[?|?] r2];
        cbn [stop_at ApplyMigrationSimple.exists_ snd];
        [|right; reflexivity].
      destruct (table_count drill_executions r2) as [[?|?] r3];
        cbn [stop_at ApplyMigrationSimple.exists_ snd];
        [|right; reflexivity].
      destruct (table_count drill_evaluations r3) as [[?|?] r4];
        cbn [stop_at ApplyMigrationSimple.exists_ snd];
        [left; reflexivity|right; reflexivity].
    + rewrite Hmain. cbn [snd].
      pose proof (verify_tables_calls w2) as Hv.
      destruct (verify_tables w2) as [[[]|e] w']; cbn [snd] in *.
      * now rewrite Hv, Hcalls.
      * destruct (handler_adds env (getenv (NEXT_PUBLIC_SUPABASE_URL env))
                               e w') as [last [_ [_ [-> _]]]].
        now rewrite Hv, Hcalls.
  - split; [intros _; exact Hnone|].
    intros sql Hfin. contradiction.
Qed.

(** X14.  With the credentials set, the client created and the file
    read, the script announces that all drill tables are verified
    exactly when, on the database the statements left, each of the four
    counts succeeds; it then prints the four tables with their counts.
    When one of the counts raises it prints no table at all and reports
    an error of the migration instead. *)
Theorem verified_iff_all_counted (env : Env) (sql : str) (r : Remote) :
  credentials_set env = true ->
  create_client (getenv (NEXT_PUBLIC_SUPABASE_URL env))
                (getenv (SUPABASE_SERVICE_ROLE_KEY env)) = Ok tt ->
  migration_file env = Some sql ->
  let after := remote (apply (statements sql) r) in
  let out := stdout (snd (main env r)) in
  (In AllVerified out
   <-> forallb ApplyMigrationSimple.exists_
               (verify_spec drill_tables after) = true)
  /\ (In AllVerified out ->
      table_lines out = verify_spec drill_tables after)
  /\ (~ In AllVerified out ->
      table_lines out = [] /\ exists e, In (ErrorApplying e) out).
Proof.
  intros Hc Hcl Hf after out. subst after out.
  destruct (main_reaches_body env sql r Hc Hcl Hf)
    as [w2 [Hrem [_ [_ [Hq [_ ->]]]]]].
  cbn [snd]. rewrite <- Hrem.
  destruct (quiet_table_lines _ Hq) as [Hq1 Hq2].
  destruct (verify_tables_outcome w2)
    as [[Hall [w' [lines [-> [Hs [Hl _]]]]]]
       |[Hall [e [w' [k [-> [Hs _]]]]]]].
  - assert (Hin : In AllVerified (stdout w')).
    { rewrite Hs. apply in_or_app. right. apply in_or_app. right.
      now left. }
    split; [tauto|]. split; [|tauto]. intros _.
    rewrite Hs, !table_lines_app, Hq1, Hl. cbn. apply app_nil_r.
  - destruct (handler_adds env (getenv (NEXT_PUBLIC_SUPABASE_URL env)) e w')
      as [last [Hh [Hlast _]]].
    assert (Hquiet : Forall quiet
                            (stdout (handler env
                                       (getenv (NEXT_PUBLIC_SUPABASE_URL env))
                                       e w'))).
    { rewrite Hh, Hs. apply Forall_app. split; [exact Hq|].
      repeat constructor. exact Hlast. }
    destruct (quiet_table_lines _ Hquiet) as [Ht Hn].
    split; [split; [tauto|congruence]|]. split; [tauto|].
    intros _. split; [exact Ht|].
    exists e. rewrite Hh. apply in_or_app. right. now left.
Qed.

End WholeScript.

Lemma applied_message_whatever_failed_witness :
  let w := snd (ApplyMigration.main (sb := bare) (cs := ascii_casing)
                                    production tt) in
  credentials_set production = true
  /\ outcomes w = [Failed no_function; Failed no_function;
                   Failed no_function; Failed no_function]
  /\ In ApplyMigration.MigrationApplied (stdout w).
Proof.
  intros w.
  assert (Hc : credentials_set production = true) by reflexivity.
  destruct (@applied_message_whatever_failed bare ascii_casing production
              drill_migration tt Hc eq_refl eq_refl) as [Hin [_ Hout]].
  split; [exact Hc|]. split; [|exact Hin].
  fold w in Hout. rewrite Hout. reflexivity.
Defined.

Lemma verified_iff_all_counted_witness :
  let out := stdout (snd (ApplyMigration.main (sb := scratch)
                            (cs := ascii_casing) production empty_db)) in
  credentials_set production = true
  /\ In ApplyMigration.AllVerified out
  /\ table_lines out
     = [(drill_scenarios, Exists 0); (drill_runs, Exists 0);
        (drill_executions, Exists 0); (drill_evaluations, Exists 0)].
Proof.
  intros out.
  assert (Hc : credentials_set production = true) by reflexivity.
  destruct (@verified_iff_all_counted scratch ascii_casing production
              drill_migration empty_db Hc eq_refl eq_refl)
    as [Hiff [Hlines _]].
  assert (Hin : In ApplyMigration.AllVerified out)
    by (apply Hiff; reflexivity).
  split; [exact Hc|]. split; [exact Hin|].
  subst out. rewrite (Hlines Hin). reflexivity.
Defined.

(** ** The whole of [apply_migration_simple.py] *)

Section WholeSimpleScript.

Context {sb : Supabase}.

Import ApplyMigrationSimple.

(** Lines 72-89 on any world: the four counts, a status line for each
    table and one line for the aggregate. *)
Lemma verify_tables_report (w : World Line) :
  calls (verify tables w) = calls w ++ map CountRows tables
  /\ statuses (stdout (verify tables w))
     = statuses (stdout w) ++ verify_spec tables (remote w)
  /\ aggregate (stdout (verify tables w))
     = aggregate (stdout w)
       ++ [aggregate_spec (verify_spec tables (remote w))].
Proof.
  unfold verify.
  destruct (check_loop_spec tables [] w)
    as [lines [Hout [Hst [Hag [Hc Hex]]]]].
  destruct (check_loop tables [] w) as [ex w'].
  cbn [fst snd] in *.
  destruct (report_line ex w') as [l [-> [Hl1 Hl2]]].
  cbn [calls stdout print]. rewrite Hout, Hc.
  rewrite !statuses_app, !aggregate_app, Hst, Hag.
  unfold statuses at 2, aggregate at 2. cbn [flat_map].
  rewrite Hl1, Hl2, !app_nil_r. cbn [app].
  repeat split. do 2 f_equal.
  rewrite Hex. cbn [app]. rewrite length_map.
  unfold aggregate_spec.
  rewrite <- filter_all, <- filter_some, verify_spec_length.
  change (length tables) with 4.
  destruct (length (filter exists_ (verify_spec tables (remote w))) =? 4);
    [reflexivity|].
  now destruct (0 <? length (filter exists_ (verify_spec tables (remote w)))).
Qed.

(** X15.  [apply_migration_simple.py] never sends a statement: whatever
    the environment and the database, it sends either no request at all
    or the four counts of the drill tables, once each and in the order
    of line 72. *)
Theorem simple_sends_counts_only (env : Env) (r : Remote) :
  calls (snd (main env r)) = []
  \/ calls (snd (main env r)) = map CountRows tables.
Proof.
  unfold main.
  destruct (NEXT_PUBLIC_SUPABASE_URL env) as [url|]; [|now left].
  destruct (SUPABASE_SERVICE_ROLE_KEY env) as [key|]; [|now left].
  destruct (negb (Py.truthy url) || negb (Py.truthy key)); [now left|].
  destruct (project_ref_of url) as [ref|]; [|now left].
  destruct (migration_file env) as [sql|]; [|now left].
  cbn [snd]. unfold check.
  destruct (create_client url key) as [[]|e]; [|now left].
  right. now rewrite (proj1 (verify_tables_report _)).
Qed.

(** X16.  With the credentials set, a ["//"] in the URL and the file
    read: when the client is created the script asks for the four
    tables, prints for each whether it exists (with the count) or not,
    and prints one aggregate line, Complete when all four exist,
    NotStarted when none does, Partial otherwise; when the client
    cannot be created it says that the tables could not be verified,
    sends nothing and prints neither a status nor an aggregate. *)
Theorem simple_run_reports (env : Env) (sql : str) (r : Remote) :
  credentials_set env = true ->
  Py.contains (u "//") (getenv (NEXT_PUBLIC_SUPABASE_URL env)) = true ->
  migration_file env = Some sql ->
  let w := snd (main env r) in
  match create_client (getenv (NEXT_PUBLIC_SUPABASE_URL env))
                      (getenv (SUPABASE_SERVICE_ROLE_KEY env)) with
  | Ok _ =>
      queried (calls w) = tables
      /\ statuses (stdout w) = verify_spec tables r
      /\ aggregate (stdout w) = [aggregate_spec (verify_spec tables r)]
  | Raise e =>
      calls w = []
      /\ In (CouldNotVerify e) (stdout w)
      /\ statuses (stdout w) = []
      /\ aggregate (stdout w) = []
  end.
Proof.
  unfold credentials_set, main. intros Hc Hs Hf.
  destruct (NEXT_PUBLIC_SUPABASE_URL env) as [url|]; [|discriminate].
  destruct (SUPABASE_SERVICE_ROLE_KEY env) as [key|];
    [|rewrite andb_false_r in Hc; discriminate].
  cbn [Py.truthy_opt getenv] in *.
  apply andb_prop in Hc as [Hu Hk]. rewrite Hu, Hk, Hf. cbn [negb orb].
  pose proof (project_ref_none url) as Hnone.
  destruct (project_ref_of url) as [ref|];
    [|destruct Hnone as [H _]; rewrite (H eq_refl) in Hs; discriminate].
  cbn [snd]. unfold check.
  destruct (create_client url key) as [[]|e].
  - match goal with
    | |- context [verify tables ?w0] =>
        destruct (verify_tables_report w0) as [Hcalls [Hst Hag]]
    end.
    rewrite Hcalls, Hst, Hag. cbn [calls stdout remote print start app].
    repeat split.
  - cbn. repeat split. auto 10.
Qed.

End WholeSimpleScript.

Lemma simple_run_reports_witness :
  let r : Remote (Supabase := scratch) :=
    [create_table drill_runs; create_table drill_scenarios] in
  let w := snd (ApplyMigrationSimple.main (sb := scratch) production r) in
  Py.contains (u "//") (u "https://abcdefgh.supabase.co") = true
  /\ ApplyMigrationSimple.statuses (stdout w)
     = [(drill_scenarios, Exists 0); (drill_runs, Exists 0);
        (drill_executions, Missing); (drill_evaluations, Missing)]
  /\ ApplyMigrationSimple.aggregate (stdout w) = [Partial].
Proof.
  intros r w.
  assert (Hs : Py.contains (u "//") (u "https://abcdefgh.supabase.co") = true)
    by reflexivity.
  pose proof (@simple_run_reports scratch production drill_migration r
                                  eq_refl Hs eq_refl) as H.
  cbn [create_client scratch] in H. destruct H as [_ [Hst Hag]].
  split; [exact Hs|]. split.
  - subst w. rewrite Hst. reflexivity.
  - subst w. rewrite Hag. reflexivity.
Defined.

(** ** Where the statements come from *)

Lemma split_semicolon_cons (c : char) (s : str) :
  Py.split (c :: s) semicolon
  = if N.eqb c semi then [] :: Py.split s semicolon
    else Py.push c (Py.split s semicolon).
Proof.
  unfold Py.split. cbn [Py.split_from]. rewrite startswith_semicolon.
  reflexivity.
Qed.

Lemma split_hd_prefix (s : str) :
  exists b, s = hd [] (Py.split s semicolon) ++ b.
Proof.
  induction s as [|c s [b IH]]; [now exists []|].
  rewrite split_semicolon_cons.
  destruct (N.eqb c semi); [now exists (c :: s)|].
  pose proof (split_from_nonempty semicolon s 0) as Hn.
  fold (Py.split s semicolon) in Hn.
  destruct (Py.split s semicolon) as [|g gs]; [congruence|].
  exists b. cbn [Py.push hd app] in *. now rewrite <- IH.
Qed.

Lemma split_fragment_inside (s f : str) :
  In f (Py.split s semicolon) -> exists a b, s = a ++ f ++ b.
Proof.
  revert f. induction s as [|c s IH]; intros f.
  - intros [<-|[]]. now exists [], [].
  - rewrite split_semicolon_cons.
    destruct (N.eqb c semi).
    + intros [<-|Hin]; [now exists [], (c :: s)|].
      destruct (IH f Hin) as [a [b ->]]. now exists (c :: a), b.
    + pose proof (split_from_nonempty semicolon s 0) as Hn.
      fold (Py.split s semicolon) in Hn.
      destruct (split_hd_prefix s) as [b Hb].
      destruct (Py.split s semicolon) as [|g gs]; [congruence|].
      cbn [Py.push hd] in *. intros [<-|Hin].
      * exists [], b. cbn [app]. now rewrite <- Hb.
      * destruct (IH f (or_intror Hin)) as [a [b' ->]].
        now exists (c :: a), b'.
Qed.

(** X17.  Every statement the splitter gives is a piece of the
    migration text, taken as it stands: the splitter sends nothing to
    the executor that the file does not hold. *)
Theorem statements_are_pieces_of_text (migration_sql : str) :
  Forall (fun statement =>
            exists before after,
              migration_sql = before ++ statement ++ after)
         (statements migration_sql).
Proof.
  unfold statements. rewrite statements_filter_map.
  apply Forall_forall. intros st Hst.
  apply filter_In in Hst as [Hst _].
  apply in_map_iff in Hst as [f [<- Hf]].
  destruct (split_fragment_inside migration_sql f Hf) as [a [b ->]].
  destruct (strip_decompose f) as [x [y [E _]]].
  exists (a ++ x), (y ++ b).
  rewrite E at 1. now rewrite <- !app_assoc.
Qed.

Lemma split_semicolon_length (s : str) :
  length (Py.split s semicolon) = S (count_occ N.eq_dec s semi).
Proof.
  induction s as [|c s IH]; [reflexivity|].
  rewrite split_semicolon_cons.
  destruct (N.eqb_spec c semi) as [->|Hne].
  - rewrite count_occ_cons_eq by reflexivity. cbn [length]. now rewrite IH.
  - rewrite count_occ_cons_neq by exact Hne.
    rewrite push_length by apply split_from_nonempty. exact IH.
Qed.

(** X18.  A text with [n] semicolons gives at most [n + 1] statements;
    a text without a semicolon gives at most one. *)
Theorem statements_bounded_by_semicolons (migration_sql : str) :
  length (statements migration_sql)
  <= S (count_occ N.eq_dec migration_sql semi).
Proof.
  unfold statements. rewrite statements_filter_map.
  rewrite <- split_semicolon_length.
  etransitivity; [apply filter_length_le|]. now rewrite length_map.
Qed.

Lemma requests_statements_then_counts_witness :
  let w := snd (ApplyMigration.main (sb := scratch) (cs := ascii_casing)
                                    staging empty_db) in
  fst (ApplyMigration.main (sb := scratch) (cs := ascii_casing)
                           staging empty_db) = Finished
  /\ calls w
     = [ExecSql (create_table drill_scenarios);
        ExecSql (create_table drill_runs);
        CountRows drill_scenarios; CountRows drill_runs;
        CountRows drill_executions].
Proof.
  intros w.
  assert (Hfin : fst (ApplyMigration.main (sb := scratch)
                        (cs := ascii_casing) staging empty_db) = Finished)
    by reflexivity.
  destruct (proj2 (@requests_statements_then_counts scratch ascii_casing
                     staging empty_db) half_migration Hfin eq_refl)
    as [_ [_ Hcalls]].
  split; [exact Hfin|]. subst w. rewrite Hcalls. reflexivity.
Defined.

(** ** A count that raises in [apply_migration.py] *)

Section CountError.

Context {sb : Supabase} {cs : Casing}.

Import ApplyMigration.

(** C5, where [apply_migration.py] departs from it.  With the
    credentials set, the client created and the file read, take a
    database on which, after the statements, one of the four counts
    raises.  Counting every table maps the four names to Exists or
    Missing, not all of them to Exists; but the script gives no name a
    status: it prints no table line at all, not for the tables whose
    count succeeded either, announces no aggregate and reports an error
    of the migration. *)
Theorem count_error_maps_no_table (env : Env) (sql : str) (r : Remote) :
  credentials_set env = true ->
  create_client (getenv (NEXT_PUBLIC_SUPABASE_URL env))
                (getenv (SUPABASE_SERVICE_ROLE_KEY env)) = Ok tt ->
  migration_file env = Some sql ->
  let after := remote (apply (statements sql) r) in
  let out := stdout (snd (main env r)) in
  forallb ApplyMigrationSimple.exists_ (verify_spec drill_tables after)
  = false ->
  map fst (verify_spec drill_tables after) = drill_tables
  /\ aggregate_spec (verify_spec drill_tables after) <> Complete
  /\ table_lines out = []
  /\ ~ In AllVerified out
  /\ exists e, In (ErrorApplying e) out.
Proof.
  intros Hc Hcl Hf after out Hmiss. subst after out.
  destruct (main_reaches_body env sql r Hc Hcl Hf)
    as [w2 [Hrem [_ [_ [Hq [_ ->]]]]]].
  cbn [snd]. rewrite <- Hrem in *.
  split; [|split].
  - clear. generalize (remote w2) as db.
    induction drill_tables as [|t ts IH]; intros db; cbn [verify_spec];
      [reflexivity|].
    destruct (table_count t db) as [[c|e] db']; cbn [map fst];
      now rewrite IH.
  - unfold aggregate_spec. rewrite Hmiss.
    now destruct (negb (existsb ApplyMigrationSimple.exists_
                                (verify_spec drill_tables (remote w2)))).
  - destruct (verify_tables_outcome w2)
      as [[Hall _]|[_ [e [w' [k [-> [Hs _]]]]]]]; [congruence|].
    destruct (handler_adds env (getenv (NEXT_PUBLIC_SUPABASE_URL env)) e w')
      as [last [Hh [Hlast _]]].
    assert (Hquiet : Forall quiet
                            (stdout (handler env
                                       (getenv (NEXT_PUBLIC_SUPABASE_URL env))
                                       e w'))).
    { rewrite Hh, Hs. apply Forall_app. split; [exact Hq|].
      repeat constructor. exact Hlast. }
    destruct (quiet_table_lines _ Hquiet) as [Ht Hn].
    split; [exact Ht|]. split; [exact Hn|].
    exists e. rewrite Hh. apply in_or_app. right. now left.
Qed.

End CountError.

(** Two of the four tables exist after the statements: counting would
    give two names Exists and two Missing, a partial migration; the
    script prints no table. *)
Lemma count_error_maps_no_table_witness :
  let after := remote (ApplyMigration.apply (sb := scratch)
                         (cs := ascii_casing)
                         (statements half_migration) empty_db) in
  let out := stdout (snd (ApplyMigration.main (sb := scratch)
                            (cs := ascii_casing) staging empty_db)) in
  verify_spec (sb := scratch) drill_tables after
  = [(drill_scenarios, Exists 0); (drill_runs, Exists 0);
     (drill_executions, Missing); (drill_evaluations, Missing)]
  /\ aggregate_spec (verify_spec (sb := scratch) drill_tables after)
     = Partial
  /\ table_lines out = []
  /\ In (ApplyMigration.ErrorApplying no_relation) out.
Proof.
  intros after out.
  assert (Hmiss : forallb ApplyMigrationSimple.exists_
                          (verify_spec (sb := scratch) drill_tables after)
                  = false) by reflexivity.
  destruct (@count_error_maps_no_table scratch ascii_casing staging
              half_migration empty_db eq_refl eq_refl eq_refl Hmiss)
    as [_ [_ [Hlines _]]].
  split; [reflexivity|]. split; [reflexivity|].
  split; [exact Hlines|].
  subst out. vm_compute. tauto.
Defined.
